(** * A personal task tracker and its reporting layer

    Shallow embedding of the two Python modules of the repository:

    - [tasts-module/Код 2.py]   : [Task] and [TaskManager], the file-backed
      task store (module [TaskStore] below);
    - [reports-module/Код 3.py] : [TaskReporting], the read-only reporting
      engine (module [Reports] below).

    Modelling conventions.

    - A Python [str] is a [string] holding its UTF-8 bytes, so the literals of
      the source appear verbatim.  Equality and the [in] substring test are
      the same on bytes and on code points; [str.strip], [str.lower],
      [datetime.fromisoformat] and [strftime] are builtins of the language,
      not code of the repository, and are taken as parameters.
    - An [int] is a [Z]; a [float] is a binary64 [float] of the kernel.
    - A naive [datetime] is the number of microseconds since
      0001-01-01T00:00:00 as a [Z]; [timedelta(days=n)] is [n] days' worth of
      microseconds.  The representable range of Python's datetimes (years 1
      to 9999) is not modelled.
    - The wall clock is a sequence of readings; every call of
      [datetime.now()] consumes the next one.
    - [json.dump]/[json.load] are elided: the backing file holds either
      nothing, undecodable text, or a list of task objects whose values have
      the types of the data model; a key may be absent.  The disk is assumed
      writable.
    - [print] appends a line to an explicit output log.
    - A Python exception is the [Raise] outcome of a computation. *)

From Stdlib Require Import String Ascii.
From Stdlib Require Import ZArith List Bool Lia Floats.
Import ListNotations.

Set Warnings "-inexact-float".
Set Default Proof Using "Type".

Local Open Scope string_scope.
Local Open Scope Z_scope.

(* ================================================================== *)
(** * Builtins of the language used by both modules *)
(* ================================================================== *)

Module Py.

Inductive exn : Type :=
| KeyError (key : string)
| ValueError (msg : string).

Inductive result (A : Type) : Type :=
| Ok (a : A)
| Raise (e : exn).

Arguments Ok {A} a.
Arguments Raise {A} e.

(** Truth value of a [str]: every string but the empty one. *)
Definition truthy (s : string) : bool := negb (s =? "")%string.

(** Truth value of an optional [str] argument ([None] is false). *)
Definition truthy_opt (o : option string) : bool :=
  match o with
  | Some s => truthy s
  | None => false
  end.

(** [needle in hay] on strings. *)
Fixpoint str_in (needle hay : string) : bool :=
  String.prefix needle hay
  || match hay with
     | EmptyString => false
     | String _ rest => str_in needle rest
     end.

(** [max(l, default=d)] on integers. *)
Definition max_default (l : list Z) (d : Z) : Z :=
  match l with
  | [] => d
  | x :: r => fold_left Z.max r x
  end.

(** [len(l)] *)
Definition len {A : Type} (l : list A) : Z := Z.of_nat (List.length l).

(** A number as Python has it: [int] or [float]. *)
Inductive num : Type :=
| Int (z : Z)
| Float (f : float).

(** [float(z)], correctly rounded. *)
Definition Z2float (z : Z) : float :=
  SF2Prim (binary_normalize 53 1024 z 0 false).

(** [a / b] on integers ([b] not zero): the quotient as a float.  Exact
    operands below 2^53, which lengths of lists are. *)
Definition truediv (a b : Z) : float := PrimFloat.div (Z2float a) (Z2float b).

(** Nearest integer to [n / d], ties to even ([d] positive). *)
Definition round_half_even (n d : Z) : Z :=
  let q := n / d in
  let r := n mod d in
  match 2 * r ?= d with
  | Lt => q
  | Gt => q + 1
  | Eq => if Z.even q then q else q + 1
  end.

(** [round(x, 2)] on a float: the exact binary value is rounded to two
    decimals (ties to even), and the decimal is read back as the nearest
    float. *)
Definition round2_float (x : float) : float :=
  match Prim2SF x with
  | S754_finite s m e =>
      if 0 <=? e then x
      else
        let q := round_half_even (Z.pos m * 100) (2 ^ (- e)) in
        let r := PrimFloat.div (Z2float q) (Z2float 100) in
        if s then PrimFloat.opp r else r
  | _ => x
  end.

(** [round(x, 2)]: an [int] is returned as it is. *)
Definition round2 (x : num) : num :=
  match x with
  | Int z => Int z
  | Float f => Float (round2_float f)
  end.

(** ** [str.strip] and [str.lower] on ASCII text

    What the two builtins do on strings of ASCII characters; the examples
    below run the model with them. *)

Definition is_space (c : ascii) : bool :=
  let n := nat_of_ascii c in
  ((9 <=? n) && (n <=? 13) || (28 <=? n) && (n <=? 32))%nat.

Fixpoint lstrip (s : string) : string :=
  match s with
  | String c r => if is_space c then lstrip r else s
  | EmptyString => EmptyString
  end.

Fixpoint rev_string (s acc : string) : string :=
  match s with
  | String c r => rev_string r (String c acc)
  | EmptyString => acc
  end.

Definition strip_ascii (s : string) : string :=
  rev_string (lstrip (rev_string (lstrip s) "")) "".

Definition lower_char (c : ascii) : ascii :=
  let n := nat_of_ascii c in
  if ((65 <=? n) && (n <=? 90))%nat then ascii_of_nat (n + 32) else c.

Fixpoint lower_ascii (s : string) : string :=
  match s with
  | String c r => String (lower_char c) (lower_ascii r)
  | EmptyString => EmptyString
  end.

(** ** Facts about the builtins *)

Lemma truthy_true_iff (s : string) : truthy s = true <-> s <> "".
Proof.
  unfold truthy. rewrite negb_true_iff. apply String.eqb_neq.
Qed.

Lemma prefix_append (a b : string) : String.prefix a (a ++ b) = true.
Proof.
  induction a as [|c a IH]; simpl.
  - destruct b; reflexivity.
  - destruct (ascii_dec c c) as [_|n]; [exact IH | contradiction].
Qed.

Lemma prefix_split (a s : string) :
  String.prefix a s = true -> exists b, s = a ++ b.
Proof.
  revert s. induction a as [|c a IH]; intros s H.
  - exists s. reflexivity.
  - destruct s as [|c' s]; simpl in H; [discriminate|].
    destruct (ascii_dec c c') as [->|]; [|discriminate].
    destruct (IH _ H) as [b ->]. exists b. reflexivity.
Qed.

(** [str_in] is the substring relation. *)
Lemma str_in_spec (needle hay : string) :
  str_in needle hay = true <-> exists pre post, hay = pre ++ needle ++ post.
Proof.
  split.
  - induction hay as [|c hay IH]; cbn [str_in]; intro H.
    + rewrite orb_false_r in H. destruct (prefix_split _ _ H) as [b Hb].
      exists "", b. exact Hb.
    + apply orb_true_iff in H. destruct H as [H|H].
      * destruct (prefix_split _ _ H) as [b Hb]. exists "", b. exact Hb.
      * destruct (IH H) as (pre & post & ->).
        exists (String c pre), post. reflexivity.
  - intros (pre & post & ->). induction pre as [|c pre IH].
    + change ("" ++ needle ++ post) with (needle ++ post).
      destruct (needle ++ post) eqn:E; cbn [str_in]; rewrite <- E;
        rewrite prefix_append; reflexivity.
    + change (String c pre ++ needle ++ post)
        with (String c (pre ++ needle ++ post)).
      cbn [str_in]. rewrite IH. apply orb_true_r.
Qed.

Lemma str_in_empty (hay : string) : str_in "" hay = true.
Proof.
  apply str_in_spec. exists "", hay. reflexivity.
Qed.

Lemma fold_max_ge (l : list Z) (a : Z) : a <= fold_left Z.max l a.
Proof.
  revert a. induction l as [|x l IH]; intro a; simpl; [lia|].
  specialize (IH (Z.max a x)). lia.
Qed.

Lemma fold_max_bound (l : list Z) (a x : Z) :
  In x l -> x <= fold_left Z.max l a.
Proof.
  revert a. induction l as [|y l IH]; intros a H; simpl in *; [contradiction|].
  destruct H as [->|H].
  - pose proof (fold_max_ge l (Z.max a x)). lia.
  - apply IH. exact H.
Qed.

(** Every element is at most [max(l, default=d)]. *)
Lemma max_default_ge (l : list Z) (d x : Z) : In x l -> x <= max_default l d.
Proof.
  destruct l as [|y l]; intro H; simpl in *; [contradiction|].
  destruct H as [->|H].
  - apply fold_max_ge.
  - apply fold_max_bound. exact H.
Qed.

End Py.

(* ================================================================== *)
(** * The persisted file, shared by the two modules *)
(* ================================================================== *)

Module TaskFile.

(** One task object of [tasks.json].  A field is [None] when its key is
    absent from the object. *)
Record TaskDict : Type := mkDict {
  d_id : option Z;
  d_title : option string;
  d_description : option string;
  d_status : option string;
  d_created_at : option string;
  d_updated_at : option string
}.

(** What [tasks.json] holds: nothing (no such file), text [json.load]
    rejects, or a list of task objects. *)
Inductive File : Type :=
| NoFile
| BadJson
| Json (objs : list TaskDict).

End TaskFile.

(* ================================================================== *)
(** * The task store: tasts-module/Код 2.py *)
(* ================================================================== *)

Module TaskStore.
Import Py TaskFile.

(** [class Task] *)
Record Task : Type := mkTask {
  id : Z;
  title : string;
  description : string;
  status : string;
  created_at : string;
  updated_at : string
}.

(** [Task.to_dict] *)
Definition to_dict (t : Task) : TaskDict :=
  {| d_id := Some (id t);
     d_title := Some (title t);
     d_description := Some (description t);
     d_status := Some (status t);
     d_created_at := Some (created_at t);
     d_updated_at := Some (updated_at t) |}.

(** Attribute assignments [task.title = v], ... *)
Definition set_title (v : string) (t : Task) : Task :=
  mkTask (id t) v (description t) (status t) (created_at t) (updated_at t).
Definition set_description (v : string) (t : Task) : Task :=
  mkTask (id t) (title t) v (status t) (created_at t) (updated_at t).
Definition set_status (v : string) (t : Task) : Task :=
  mkTask (id t) (title t) (description t) v (created_at t) (updated_at t).
Definition set_updated_at (v : string) (t : Task) : Task :=
  mkTask (id t) (title t) (description t) (status t) (created_at t) v.

(** [if v is not None: task.field = v] *)
Definition assign_if_given (set : string -> Task -> Task) (v : option string)
    (t : Task) : Task :=
  match v with
  | Some x => set x t
  | None => t
  end.

(** The state the store runs in: the [tasks] attribute of the manager, the
    content of [TASKS_FILE], and how many times the clock was read. *)
Record World : Type := mkWorld {
  tasks : list Task;
  disk : File;
  reads : nat
}.

(** Computations over the world that may raise. *)
Definition M (A : Type) : Type := World -> result A * World.

Definition ret {A : Type} (a : A) : M A := fun w => (Ok a, w).

Definition raise {A : Type} (e : exn) : M A := fun w => (Raise e, w).

Definition bind {A B : Type} (m : M A) (k : A -> M B) : M B :=
  fun w =>
    match m w with
    | (Ok a, w') => k a w'
    | (Raise e, w') => (Raise e, w')
    end.

Notation "x <- m ;; k" := (bind m (fun x => k))
  (at level 61, m at next level, right associativity).
Notation "m ;;; k" := (bind m (fun _ => k))
  (at level 61, right associativity).

Definition get_tasks : M (list Task) := fun w => (Ok (tasks w), w).

Definition set_tasks (ts : list Task) : M unit :=
  fun w => (Ok tt, mkWorld ts (disk w) (reads w)).

Definition read_file : M File := fun w => (Ok (disk w), w).

Definition write_file (f : File) : M unit :=
  fun w => (Ok tt, mkWorld (tasks w) f (reads w)).

Fixpoint mapM {A B : Type} (f : A -> M B) (l : list A) : M (list B) :=
  match l with
  | [] => ret []
  | a :: r => b <- f a ;; bs <- mapM f r ;; ret (b :: bs)
  end.

(** The first element of [ts] with the given id is replaced by its image
    under [f]: the effect of mutating the object [get_task] returned. *)
Fixpoint mutate_first (task_id : Z) (f : Task -> Task) (ts : list Task)
    : list Task :=
  match ts with
  | [] => []
  | t :: r =>
      if id t =? task_id then f t :: r else t :: mutate_first task_id f r
  end.

Section Store.

(** [str.strip] and [str.lower]. *)
Variable strip : string -> string.
Variable lower : string -> string.

(** The [n]-th reading of [datetime.now().isoformat()]. *)
Variable clock : nat -> string.

(** [datetime.now().isoformat()] *)
Definition now_isoformat : M string :=
  fun w => (Ok (clock (reads w)), mkWorld (tasks w) (disk w) (S (reads w))).

(** [given or datetime.now().isoformat()] *)
Definition or_now (given : option string) : M string :=
  match given with
  | Some s => if truthy s then ret s else now_isoformat
  | None => now_isoformat
  end.

(** [Task.__init__] *)
Definition Task_init (id0 : Z) (title0 description0 status0 : string)
    (created_at0 updated_at0 : option string) : M Task :=
  c <- or_now created_at0 ;;
  u <- or_now updated_at0 ;;
  ret (mkTask id0 title0 description0 status0 c u).

(** [data[key]] *)
Definition item {A : Type} (key : string) (v : option A) : M A :=
  match v with
  | Some a => ret a
  | None => raise (KeyError key)
  end.

(** [Task.from_dict] *)
Definition from_dict (data : TaskDict) : M Task :=
  i <- item "id" (d_id data) ;;
  t <- item "title" (d_title data) ;;
  d <- item "description" (d_description data) ;;
  s <- item "status" (d_status data) ;;
  Task_init i t d s (d_created_at data) (d_updated_at data).

(** [TaskManager.load_tasks] *)
Definition load_tasks : M unit :=
  f <- read_file ;;
  match f with
  | Json tasks_data => ts <- mapM from_dict tasks_data ;; set_tasks ts
  | BadJson => set_tasks []
  | NoFile => set_tasks []
  end.

(** [TaskManager.__init__] *)
Definition TaskManager_init : M unit :=
  set_tasks [] ;;; load_tasks.

(** [TaskManager.save_tasks] *)
Definition save_tasks : M unit :=
  ts <- get_tasks ;; write_file (Json (map to_dict ts)).

(** [TaskManager.create_task] *)
Definition create_task (title0 description0 : string)
    : M (option Task * string) :=
  if negb (truthy (strip title0)) then
    ret (None, "Название задачи не может быть пустым")
  else
    ts <- get_tasks ;;
    let new_id := max_default (map id ts) 0 + 1 in
    task <- Task_init new_id title0 description0 "активная" None None ;;
    set_tasks (ts ++ [task])%list ;;;
    save_tasks ;;;
    ret (Some task, "Задача успешно создана").

(** [TaskManager.get_task] *)
Definition get_task (task_id : Z) : M (option Task) :=
  ts <- get_tasks ;; ret (find (fun t => id t =? task_id) ts).

(** [TaskManager.update_task] *)
Definition update_task (task_id : Z) (title0 description0 status0 : option string)
    : M (bool * string) :=
  task <- get_task task_id ;;
  match task with
  | None => ret (false, "Задача не найдена")
  | Some _ =>
      now <- now_isoformat ;;
      ts <- get_tasks ;;
      set_tasks
        (mutate_first task_id
           (fun t =>
              set_updated_at now
                (assign_if_given set_status status0
                   (assign_if_given set_description description0
                      (assign_if_given set_title title0 t))))
           ts) ;;;
      save_tasks ;;;
      ret (true, "Задача успешно обновлена")
  end.

(** [TaskManager.delete_task] *)
Definition delete_task (task_id : Z) : M (bool * string) :=
  task <- get_task task_id ;;
  match task with
  | None => ret (false, "Задача не найдена")
  | Some _ =>
      ts <- get_tasks ;;
      set_tasks (filter (fun t => negb (id t =? task_id)) ts) ;;;
      save_tasks ;;;
      ret (true, "Задача успешно удалена")
  end.

(** [TaskManager.get_all_tasks] *)
Definition get_all_tasks : M (list Task) := get_tasks.

(** [TaskManager.filter_tasks] *)
Definition filter_tasks (status0 keyword : option string) : M (list Task) :=
  filtered <- get_tasks ;;
  let filtered :=
    match status0 with
    | Some s =>
        if truthy s then filter (fun task => (status task =? s)%string) filtered
        else filtered
    | None => filtered
    end in
  let filtered :=
    match keyword with
    | Some k =>
        if truthy k then
          let keyword_lower := lower k in
          filter
            (fun task =>
               str_in keyword_lower (lower (title task))
               || str_in keyword_lower (lower (description task)))
            filtered
        else filtered
    | None => filtered
    end in
  ret filtered.

(** [TaskManager.change_status] *)
Definition change_status (task_id : Z) (new_status : string) : M (bool * string) :=
  update_task task_id None None (Some new_status).

(** ** Sequences of mutations *)

Inductive op : Type :=
| Create (title0 description0 : string)
| Update (task_id : Z) (title0 description0 status0 : option string)
| Delete (task_id : Z).

(** What a mutation handed back to its caller. *)
Inductive outcome : Type :=
| Created (r : result (option Task * string))
| Flagged (r : result (bool * string)).

Definition exec (o : op) (w : World) : outcome * World :=
  match o with
  | Create t d => let (r, w') := create_task t d w in (Created r, w')
  | Update i t d s => let (r, w') := update_task i t d s w in (Flagged r, w')
  | Delete i => let (r, w') := delete_task i w in (Flagged r, w')
  end.

(** The calls of [ops] one after the other, with what each returned. *)
Fixpoint run (ops : list op) (w : World) : list outcome * World :=
  match ops with
  | [] => ([], w)
  | o :: r =>
      let (x, w1) := exec o w in
      let (xs, w2) := run r w1 in
      (x :: xs, w2)
  end.

(** The ids [create_task] handed out, oldest first. *)
Fixpoint assigned_ids (l : list outcome) : list Z :=
  match l with
  | [] => []
  | Created (Ok (Some t, _)) :: r => id t :: assigned_ids r
  | _ :: r => assigned_ids r
  end.

(** The ids of the live tasks. *)
Definition ids (w : World) : list Z := map id (tasks w).

(** A store as a new process finds it: no task in memory yet. *)
Definition fresh (w : World) : World := mkWorld [] (disk w) (reads w).

(** The states the store can be in: a manager was constructed over some
    file, then mutated. *)
Inductive reachable : World -> Prop :=
| reach_init (w w' : World) :
    TaskManager_init w = (Ok tt, w') -> reachable w'
| reach_exec (o : op) (w : World) :
    reachable w -> reachable (snd (exec o w)).

(** Both timestamps of every task are set (non-empty). *)
Definition stamped (t : Task) : Prop :=
  created_at t <> "" /\ updated_at t <> "".

(** ** What each mutation does, in closed form *)

Lemma find_id_none (task_id : Z) (ts : list Task) :
  find (fun t => id t =? task_id) ts = None <-> ~ In task_id (map id ts).
Proof.
  induction ts as [|t ts IH]; simpl.
  - tauto.
  - destruct (Z.eqb_spec (id t) task_id) as [E|E].
    + split; [discriminate | intro H; exfalso; apply H; left; exact E].
    + rewrite IH. tauto.
Qed.

Lemma find_id_some (task_id : Z) (ts : list Task) (t : Task) :
  find (fun t => id t =? task_id) ts = Some t -> In t ts /\ id t = task_id.
Proof.
  intro H. apply find_some in H. destruct H as [H1 H2].
  split; [exact H1 | apply Z.eqb_eq; exact H2].
Qed.

Lemma create_task_blank (title0 description0 : string) (w : World) :
  truthy (strip title0) = false ->
  create_task title0 description0 w
  = (Ok (None, "Название задачи не может быть пустым"), w).
Proof.
  intro H. unfold create_task. rewrite H. reflexivity.
Qed.

Lemma create_task_ok (title0 description0 : string) (w : World) :
  truthy (strip title0) = true ->
  let task :=
    mkTask (max_default (ids w) 0 + 1) title0 description0 "активная"
      (clock (reads w)) (clock (S (reads w))) in
  create_task title0 description0 w
  = (Ok (Some task, "Задача успешно создана"),
     mkWorld (tasks w ++ [task]) (Json (map to_dict (tasks w ++ [task])))
       (S (S (reads w)))).
Proof.
  intro H. unfold create_task. rewrite H. reflexivity.
Qed.

Lemma update_task_missing (task_id : Z) (t0 d0 s0 : option string) (w : World) :
  find (fun t => id t =? task_id) (tasks w) = None ->
  update_task task_id t0 d0 s0 w = (Ok (false, "Задача не найдена"), w).
Proof.
  intro H. unfold update_task, bind, get_task, get_tasks, ret; simpl.
  rewrite H. reflexivity.
Qed.

Lemma update_task_found (task_id : Z) (t0 d0 s0 : option string) (w : World)
    (task : Task) :
  find (fun t => id t =? task_id) (tasks w) = Some task ->
  let ts :=
    mutate_first task_id
      (fun t =>
         set_updated_at (clock (reads w))
           (assign_if_given set_status s0
              (assign_if_given set_description d0
                 (assign_if_given set_title t0 t))))
      (tasks w) in
  update_task task_id t0 d0 s0 w
  = (Ok (true, "Задача успешно обновлена"),
     mkWorld ts (Json (map to_dict ts)) (S (reads w))).
Proof.
  intro H. unfold update_task, bind, get_task, get_tasks, ret; simpl.
  rewrite H. reflexivity.
Qed.

Lemma delete_task_missing (task_id : Z) (w : World) :
  find (fun t => id t =? task_id) (tasks w) = None ->
  delete_task task_id w = (Ok (false, "Задача не найдена"), w).
Proof.
  intro H. unfold delete_task, bind, get_task, get_tasks, ret; simpl.
  rewrite H. reflexivity.
Qed.

Lemma delete_task_found (task_id : Z) (w : World) (task : Task) :
  find (fun t => id t =? task_id) (tasks w) = Some task ->
  let ts := filter (fun t => negb (id t =? task_id)) (tasks w) in
  delete_task task_id w
  = (Ok (true, "Задача успешно удалена"),
     mkWorld ts (Json (map to_dict ts)) (reads w)).
Proof.
  intro H. unfold delete_task, bind, get_task, get_tasks, ret; simpl.
  rewrite H. reflexivity.
Qed.

(** ** Identity of tasks *)

Lemma mutate_first_ids (task_id : Z) (f : Task -> Task) (ts : list Task) :
  (forall t, id (f t) = id t) ->
  map id (mutate_first task_id f ts) = map id ts.
Proof.
  intro Hf. induction ts as [|t ts IH]; simpl; [reflexivity|].
  destruct (id t =? task_id); simpl.
  - rewrite Hf. reflexivity.
  - rewrite IH. reflexivity.
Qed.

Lemma assign_if_given_id (set : string -> Task -> Task) (v : option string)
    (t : Task) :
  (forall x u, id (set x u) = id u) -> id (assign_if_given set v t) = id t.
Proof.
  intro H. destruct v; simpl; [apply H | reflexivity].
Qed.

Lemma filter_ids (task_id : Z) (ts : list Task) :
  map id (filter (fun t => negb (id t =? task_id)) ts)
  = filter (fun i => negb (i =? task_id)) (map id ts).
Proof.
  induction ts as [|t ts IH]; simpl; [reflexivity|].
  destruct (id t =? task_id); simpl; rewrite IH; reflexivity.
Qed.

Lemma fresh_id_above (w : World) (i : Z) :
  In i (ids w) -> i < max_default (ids w) 0 + 1.
Proof.
  intro H. pose proof (max_default_ge (ids w) 0 i H). lia.
Qed.

(** One mutation keeps the live ids pairwise distinct. *)
Lemma exec_NoDup (o : op) (w : World) :
  NoDup (ids w) -> NoDup (ids (snd (exec o w))).
Proof.
  intro H. destruct o as [t0 d0 | i t0 d0 s0 | i]; unfold exec.
  - destruct (truthy (strip t0)) eqn:E.
    + rewrite (create_task_ok t0 d0 w E). unfold ids at 1; cbn [snd tasks].
      rewrite map_app. cbn [map id].
      apply NoDup_app; [exact H | repeat constructor; intros [] | ].
      intros x Hx [Hy|[]]. subst x. apply fresh_id_above in Hx. lia.
    + rewrite (create_task_blank t0 d0 w E). exact H.
  - destruct (find (fun t => id t =? i) (tasks w)) eqn:E.
    + rewrite (update_task_found i t0 d0 s0 w t E). unfold ids; simpl.
      rewrite mutate_first_ids; [exact H|]. intro u.
      simpl. repeat (rewrite assign_if_given_id; [|reflexivity]). reflexivity.
    + rewrite (update_task_missing i t0 d0 s0 w E). exact H.
  - destruct (find (fun t => id t =? i) (tasks w)) eqn:E.
    + rewrite (delete_task_found i w t E). unfold ids; simpl.
      rewrite filter_ids. apply NoDup_filter. exact H.
    + rewrite (delete_task_missing i w E). exact H.
Qed.

Lemma run_NoDup (ops : list op) (w : World) :
  NoDup (ids w) -> NoDup (ids (snd (run ops w))).
Proof.
  revert w. induction ops as [|o ops IH]; intros w H; simpl; [exact H|].
  pose proof (exec_NoDup o w H) as H1.
  destruct (exec o w) as [x w1]. simpl in H1.
  specialize (IH w1 H1). destruct (run ops w1) as [xs w2]. exact IH.
Qed.

(** ** The mutated task and its neighbours *)

Lemma mutate_first_split (task_id : Z) (f : Task -> Task) (ts : list Task)
    (task : Task) :
  find (fun t => id t =? task_id) ts = Some task ->
  exists pre post,
    ts = (pre ++ task :: post)%list
    /\ mutate_first task_id f ts = (pre ++ f task :: post)%list
    /\ find (fun t => id t =? task_id) pre = None.
Proof.
  induction ts as [|t ts IH]; simpl; [discriminate|].
  destruct (id t =? task_id) eqn:E; intro H.
  - injection H as ->. exists [], ts. repeat split.
  - destruct (IH H) as (pre & post & -> & -> & Hpre).
    exists (t :: pre), post. simpl. rewrite E. repeat split. exact Hpre.
Qed.

Lemma find_app_first (task_id : Z) (pre post : list Task) (t : Task) :
  find (fun t => id t =? task_id) pre = None ->
  id t = task_id ->
  find (fun t => id t =? task_id) (pre ++ t :: post) = Some t.
Proof.
  intros Hpre Hid. induction pre as [|u pre IH]; simpl in *.
  - rewrite Hid, Z.eqb_refl. reflexivity.
  - destruct (id u =? task_id); [discriminate | apply IH; exact Hpre].
Qed.

(** ** Timestamps are always set *)

Lemma or_now_stamped (given : option string) (w : World) :
  (forall n, clock n <> "") ->
  exists s w', or_now given w = (Ok s, w') /\ s <> ""
               /\ tasks w' = tasks w /\ disk w' = disk w.
Proof.
  intro Hc. destruct given as [s|]; simpl.
  - destruct (truthy s) eqn:E.
    + exists s, w. repeat split. apply truthy_true_iff. exact E.
    + eexists _, _. split; [reflexivity|]. repeat split. apply Hc.
  - eexists _, _. split; [reflexivity|]. repeat split. apply Hc.
Qed.

Lemma from_dict_stamped (data : TaskDict) (w w' : World) (t : Task) :
  (forall n, clock n <> "") ->
  from_dict data w = (Ok t, w') -> stamped t /\ disk w' = disk w.
Proof.
  intros Hc. unfold from_dict, Task_init, item, bind, raise, ret.
  destruct (d_id data); [|discriminate].
  destruct (d_title data); [|discriminate].
  destruct (d_description data); [|discriminate].
  destruct (d_status data); [|discriminate].
  cbv beta iota.
  destruct (or_now_stamped (d_created_at data) w Hc) as (c & w1 & -> & Hc1 & _ & Hd1).
  destruct (or_now_stamped (d_updated_at data) w1 Hc) as (u & w2 & -> & Hu1 & _ & Hd2).
  intro H. injection H as <- <-. split; [split; assumption | congruence].
Qed.

Lemma mapM_from_dict_stamped (l : list TaskDict) (w w' : World) (ts : list Task) :
  (forall n, clock n <> "") ->
  mapM from_dict l w = (Ok ts, w') -> Forall stamped ts.
Proof.
  intro Hc. revert w w' ts. induction l as [|d l IH]; intros w w' ts; simpl.
  - unfold ret. intro H. injection H as <- _. constructor.
  - unfold bind at 1. destruct (from_dict d w) as [[t|e] w1] eqn:E; [|discriminate].
    unfold bind at 1. destruct (mapM from_dict l w1) as [[r|e] w2] eqn:E2; [|discriminate].
    unfold ret. intro H. injection H as <- _. constructor.
    + apply (from_dict_stamped d w w1 t Hc E).
    + apply (IH w1 w2 r E2).
Qed.

Lemma init_stamped (w w' : World) :
  (forall n, clock n <> "") ->
  TaskManager_init w = (Ok tt, w') -> Forall stamped (tasks w').
Proof.
  intro Hc. unfold TaskManager_init, load_tasks, bind, set_tasks, read_file.
  cbn [disk]. destruct (disk w) as [| |l].
  - intro H. injection H as <-. constructor.
  - intro H. injection H as <-. constructor.
  - destruct (mapM from_dict l _) as [[ts|e] w1] eqn:E; [|discriminate].
    intro H. injection H as <-. cbn [tasks].
    apply (mapM_from_dict_stamped l _ _ ts Hc E).
Qed.

Lemma mutate_first_Forall (P : Task -> Prop) (task_id : Z) (f : Task -> Task)
    (ts : list Task) :
  (forall t, P t -> P (f t)) -> Forall P ts -> Forall P (mutate_first task_id f ts).
Proof.
  intros Hf H. induction H as [|t ts Ht Hts IH]; simpl; [constructor|].
  destruct (id t =? task_id); constructor; auto.
Qed.

Lemma assign_if_given_created (set : string -> Task -> Task) (v : option string)
    (t : Task) :
  (forall x u, created_at (set x u) = created_at u) ->
  created_at (assign_if_given set v t) = created_at t.
Proof.
  intro H. destruct v; simpl; [apply H | reflexivity].
Qed.

Lemma exec_stamped (o : op) (w : World) :
  (forall n, clock n <> "") ->
  Forall stamped (tasks w) -> Forall stamped (tasks (snd (exec o w))).
Proof.
  intros Hc H. destruct o as [t0 d0 | i t0 d0 s0 | i]; unfold exec.
  - destruct (truthy (strip t0)) eqn:E.
    + rewrite (create_task_ok t0 d0 w E). cbn [snd tasks].
      apply Forall_app. split; [exact H|]. constructor; [|constructor].
      split; apply Hc.
    + rewrite (create_task_blank t0 d0 w E). exact H.
  - destruct (find (fun t => id t =? i) (tasks w)) eqn:E.
    + rewrite (update_task_found i t0 d0 s0 w t E). cbn [snd tasks].
      apply mutate_first_Forall; [|exact H].
      intros u [Hu _]. split; [|apply Hc].
      cbn [set_updated_at created_at].
      repeat (rewrite assign_if_given_created; [|reflexivity]). exact Hu.
    + rewrite (update_task_missing i t0 d0 s0 w E). exact H.
  - destruct (find (fun t => id t =? i) (tasks w)) eqn:E.
    + rewrite (delete_task_found i w t E). cbn [snd tasks].
      apply Forall_forall. intros u Hu. apply filter_In in Hu.
      rewrite Forall_forall in H. apply H. tauto.
    + rewrite (delete_task_missing i w E). exact H.
Qed.

Lemma reachable_stamped (w : World) :
  (forall n, clock n <> "") -> reachable w -> Forall stamped (tasks w).
Proof.
  intros Hc H. induction H as [w w' H | o w H IH].
  - apply (init_stamped w w' Hc H).
  - apply exec_stamped; assumption.
Qed.

(** Loading what [to_dict] wrote gives the tasks back and reads no clock. *)
Lemma from_dict_to_dict (t : Task) (w : World) :
  stamped t -> from_dict (to_dict t) w = (Ok t, w).
Proof.
  intros [Hc Hu]. destruct t as [i ti de st c u]; simpl in *.
  unfold from_dict, Task_init, item, bind, ret, or_now; simpl.
  apply truthy_true_iff in Hc, Hu. rewrite Hc; simpl. rewrite Hu; simpl.
  reflexivity.
Qed.

Lemma mapM_from_dict_to_dict (ts : list Task) (w : World) :
  Forall stamped ts -> mapM from_dict (map to_dict ts) w = (Ok ts, w).
Proof.
  intro H. induction H as [|t ts Ht Hts IH]; simpl; [reflexivity|].
  unfold bind at 1. rewrite (from_dict_to_dict t w Ht).
  unfold bind at 1. rewrite IH. reflexivity.
Qed.

(** ** The filter of the specification *)

(** [keyword] occurs in [text] when case is ignored. *)
Definition contains_ci (keyword text : string) : Prop :=
  exists pre post, lower text = pre ++ lower keyword ++ post.

(** The test the specification gives for [filter(status, keyword)]: the
    status is the given one and the keyword occurs, case ignored, in the
    title or in the description. *)
Definition spec_matches (s k : string) (t : Task) : bool :=
  (status t =? s)%string
  && (str_in (lower k) (lower (title t))
      || str_in (lower k) (lower (description t))).

(** The tasks the specification selects, in the order of the collection. *)
Definition spec_filter (s k : string) (ts : list Task) : list Task :=
  filter (spec_matches s k) ts.

Lemma filter_twice {A : Type} (p q : A -> bool) (l : list A) :
  filter q (filter p l) = filter (fun a => p a && q a) l.
Proof.
  induction l as [|a l IH]; simpl; [reflexivity|].
  destruct (p a); simpl; [destruct (q a)|]; rewrite IH; reflexivity.
Qed.

Lemma spec_matches_iff (s k : string) (t : Task) :
  spec_matches s k t = true
  <-> status t = s /\ (contains_ci k (title t) \/ contains_ci k (description t)).
Proof.
  unfold spec_matches, contains_ci.
  rewrite andb_true_iff, orb_true_iff, String.eqb_eq, !str_in_spec.
  reflexivity.
Qed.

(* ------------------------------------------------------------------ *)
(** ** Properties of the store *)
(* ------------------------------------------------------------------ *)

(** C1 (as amended).  Along every sequence of create/update/delete calls
    that starts in a store whose ids are pairwise distinct (the empty store
    is one), the ids of the live tasks stay pairwise distinct; and the id
    [create] hands out next is [max(live ids, default 0) + 1], strictly above
    every live id, the new task coming last.  Nothing remembers the ids of
    deleted tasks. *)
Theorem ids_stay_unique_and_exceed_live (ops : list op) (w : World) :
  NoDup (ids w) ->
  NoDup (ids (snd (run ops w)))
  /\ forall title0 description0 task msg w',
       create_task title0 description0 (snd (run ops w))
       = (Ok (Some task, msg), w') ->
       id task = max_default (ids (snd (run ops w))) 0 + 1
       /\ (forall i, In i (ids (snd (run ops w))) -> i < id task)
       /\ ids w' = (ids (snd (run ops w)) ++ [id task])%list
       /\ NoDup (ids w').
Proof.
  intro H. pose proof (run_NoDup ops w H) as Hrun.
  split; [exact Hrun|].
  set (v := snd (run ops w)) in *. intros t0 d0 task msg w' E.
  pose proof (exec_NoDup (Create t0 d0) v Hrun) as Hnext.
  unfold exec in Hnext. rewrite E in Hnext. cbn [snd] in Hnext.
  destruct (truthy (strip t0)) eqn:Et.
  - rewrite (create_task_ok t0 d0 v Et) in E. injection E as <- _ <-.
    cbn [id]. split; [reflexivity|]. split; [apply fresh_id_above|].
    split; [|exact Hnext].
    unfold ids at 1. cbn [tasks]. rewrite map_app. reflexivity.
  - rewrite (create_task_blank t0 d0 v Et) in E. discriminate.
Qed.

(** C6.  In every state the store can be in, after [create] and [save] a
    manager constructed afresh over the same file holds exactly the tasks
    that were in memory, field for field and in order; it finds the world
    as the save left it. *)
Theorem save_then_load_roundtrip (w : World) (title0 description0 : string) :
  (forall n, clock n <> "") ->
  reachable w ->
  TaskManager_init
    (fresh (snd (save_tasks (snd (create_task title0 description0 w)))))
  = (Ok tt, snd (save_tasks (snd (create_task title0 description0 w))))
  /\ tasks (snd (save_tasks (snd (create_task title0 description0 w))))
     = tasks (snd (create_task title0 description0 w)).
Proof.
  intros Hc Hw.
  pose proof (reachable_stamped _ Hc (reach_exec (Create title0 description0) w Hw))
    as Hs.
  unfold exec in Hs.
  destruct (create_task title0 description0 w) as [r w1]. cbn [snd] in *.
  split; [|reflexivity].
  unfold TaskManager_init, load_tasks, save_tasks, fresh, bind, set_tasks,
    read_file, write_file, get_tasks.
  cbn [snd disk tasks reads].
  rewrite (mapM_from_dict_to_dict (tasks w1) _ Hs). reflexivity.
Qed.

(** C7 (as amended).  With a non-empty status and a keyword, [filter]
    returns exactly the tasks whose status equals the given one and whose
    title or description contains the keyword, case ignored, in the order
    of the collection; the store is left as it was. *)
Theorem filter_status_and_keyword (w : World) (s k : string) :
  lower "" = "" ->
  s <> "" ->
  filter_tasks (Some s) (Some k) w = (Ok (spec_filter s k (tasks w)), w)
  /\ forall t,
       In t (spec_filter s k (tasks w))
       <-> In t (tasks w) /\ status t = s
           /\ (contains_ci k (title t) \/ contains_ci k (description t)).
Proof.
  intros Hl Hs. split.
  - unfold filter_tasks, bind, get_tasks, ret, spec_filter.
    apply truthy_true_iff in Hs. rewrite Hs.
    destruct (truthy k) eqn:Ek.
    + rewrite filter_twice. reflexivity.
    + assert (k = "") as ->.
      { unfold truthy in Ek. apply negb_false_iff in Ek.
        apply String.eqb_eq. exact Ek. }
      f_equal. f_equal. apply filter_ext. intro t. unfold spec_matches.
      rewrite Hl, str_in_empty. simpl. rewrite andb_true_r. reflexivity.
  - intro t. unfold spec_filter. rewrite filter_In, spec_matches_iff.
    split; intros [H1 H2]; [destruct H2 | destruct H2]; repeat split; assumption.
Qed.

(** C8 (as amended).  For a task present in the store, [update] changes the
    fields it was given and no other: [id] and [created_at] stay, an
    omitted title, description or status stays, the tasks around it stay,
    and [updated_at] becomes the reading of the clock taken by the call,
    whatever the earlier value was. *)
Theorem update_changes_supplied_fields_only (w : World) (task_id : Z)
    (title0 description0 status0 : option string) (task : Task) :
  get_task task_id w = (Ok (Some task), w) ->
  exists pre post task',
    tasks w = (pre ++ task :: post)%list
    /\ update_task task_id title0 description0 status0 w
       = (Ok (true, "Задача успешно обновлена"),
          mkWorld (pre ++ task' :: post)
            (Json (map to_dict (pre ++ task' :: post))) (S (reads w)))
    /\ find (fun t => id t =? task_id) (pre ++ task' :: post) = Some task'
    /\ id task' = id task
    /\ title task' = match title0 with Some v => v | None => title task end
    /\ description task'
       = match description0 with Some v => v | None => description task end
    /\ status task' = match status0 with Some v => v | None => status task end
    /\ created_at task' = created_at task
    /\ updated_at task' = clock (reads w).
Proof.
  unfold get_task, bind, get_tasks, ret. intro H. injection H as H.
  destruct (mutate_first_split task_id
              (fun t =>
                 set_updated_at (clock (reads w))
                   (assign_if_given set_status status0
                      (assign_if_given set_description description0
                         (assign_if_given set_title title0 t))))
              (tasks w) task H) as (pre & post & Hts & Hmut & Hpre).
  eexists pre, post, _. split; [exact Hts|].
  split; [rewrite (update_task_found _ _ _ _ _ _ H); cbv zeta; rewrite Hmut; reflexivity|].
  destruct (find_id_some _ _ _ H) as [_ Hid].
  split.
  { apply find_app_first; [exact Hpre|].
    destruct title0, description0, status0; exact Hid. }
  destruct title0, description0, status0; repeat split.
Qed.

(** C9.  For an id that no task of the collection has, [update] and
    [delete] both return failure with the "not found" message and leave
    the world as it was: the collection, the file (nothing is saved) and
    the clock (it is not read). *)
Theorem unknown_id_is_refused (w : World) (task_id : Z)
    (title0 description0 status0 : option string) :
  ~ In task_id (ids w) ->
  update_task task_id title0 description0 status0 w
  = (Ok (false, "Задача не найдена"), w)
  /\ delete_task task_id w = (Ok (false, "Задача не найдена"), w).
Proof.
  intro H. apply find_id_none in H. split.
  - apply update_task_missing. exact H.
  - apply delete_task_missing. exact H.
Qed.

(* ------------------------------------------------------------------ *)
(** ** Further properties of the store *)
(* ------------------------------------------------------------------ *)

Lemma find_id_app_none (task_id : Z) (pre post : list Task) :
  find (fun t => id t =? task_id) pre = None ->
  find (fun t => id t =? task_id) (pre ++ post)
  = find (fun t => id t =? task_id) post.
Proof.
  intro H. induction pre as [|u pre IH]; simpl in *; [reflexivity|].
  destruct (id u =? task_id); [discriminate | apply IH; exact H].
Qed.

Lemma find_id_app_some (task_id : Z) (pre post : list Task) (t : Task) :
  find (fun t => id t =? task_id) pre = Some t ->
  find (fun t => id t =? task_id) (pre ++ post) = Some t.
Proof.
  intro H. induction pre as [|u pre IH]; simpl in *; [discriminate|].
  destruct (id u =? task_id); [exact H | apply IH; exact H].
Qed.

Lemma find_id_live (task_id : Z) (ts : list Task) :
  In task_id (map id ts) ->
  exists t, find (fun t => id t =? task_id) ts = Some t.
Proof.
  intro H. destruct (find (fun t => id t =? task_id) ts) as [t|] eqn:E.
  - exists t. reflexivity.
  - apply find_id_none in E. contradiction.
Qed.

Lemma filter_other_ids (task_id : Z) (ts : list Task) :
  ~ In task_id (map id ts) ->
  filter (fun t => negb (id t =? task_id)) ts = ts.
Proof.
  induction ts as [|t ts IH]; simpl; intro H; [reflexivity|].
  destruct (Z.eqb_spec (id t) task_id) as [E|E]; simpl.
  - exfalso. apply H. left. exact E.
  - rewrite IH; [reflexivity|]. intro Hin. apply H. right. exact Hin.
Qed.

Lemma filter_drops_one (task_id : Z) (ts : list Task) :
  NoDup (map id ts) ->
  In task_id (map id ts) ->
  List.length ts = S (List.length (filter (fun t => negb (id t =? task_id)) ts)).
Proof.
  induction ts as [|t ts IH]; simpl; intros Hnd Hin; [contradiction|].
  inversion Hnd as [|? ? Hnot Hnd']; subst.
  destruct (Z.eqb_spec (id t) task_id) as [E|E]; simpl.
  - rewrite filter_other_ids; [reflexivity|]. rewrite <- E. exact Hnot.
  - destruct Hin as [Hin|Hin]; [contradiction|].
    rewrite <- (IH Hnd' Hin). reflexivity.
Qed.

(** X1.  A task whose title is not blank is created: it comes last in the
    collection, carries the title and the description as given, the status
    "активная" and the next two readings of the clock; the tasks before it
    are as they were, the file holds the new collection, and [get_task]
    with the id it was given finds it. *)
Theorem created_task_is_found (title0 description0 : string) (w : World) :
  strip title0 <> "" ->
  exists task w',
    create_task title0 description0 w
    = (Ok (Some task, "Задача успешно создана"), w')
    /\ get_task (id task) w' = (Ok (Some task), w')
    /\ tasks w' = (tasks w ++ [task])%list
    /\ disk w' = Json (map to_dict (tasks w'))
    /\ title task = title0
    /\ description task = description0
    /\ status task = "активная"
    /\ created_at task = clock (reads w)
    /\ updated_at task = clock (S (reads w)).
Proof.
  intro H. apply truthy_true_iff in H.
  eexists _, _. split; [apply (create_task_ok title0 description0 w H)|].
  split; [|repeat split].
  unfold get_task, bind, get_tasks, ret. cbn [tasks id].
  rewrite find_app_first; [reflexivity | | reflexivity].
  apply find_id_none. intro Hin. apply fresh_id_above in Hin. lia.
Qed.

(** X2.  [create_task] refuses a title exactly when stripping it leaves
    nothing: it then returns no task and its message, and the world is as
    it was (no id is used up, nothing is saved, the clock is not read). *)
Theorem blank_title_is_refused (title0 description0 : string) (w : World) :
  (strip title0 = "" <->
   fst (create_task title0 description0 w)
   = Ok (None, "Название задачи не может быть пустым"))
  /\ (strip title0 = "" -> snd (create_task title0 description0 w) = w).
Proof.
  destruct (truthy (strip title0)) eqn:E.
  - rewrite (create_task_ok title0 description0 w E). cbn [fst snd].
    apply truthy_true_iff in E. split; [split|]; intro H;
      [contradiction | discriminate | contradiction].
  - rewrite (create_task_blank title0 description0 w E). cbn [fst snd].
    unfold truthy in E. apply negb_false_iff, String.eqb_eq in E.
    split; [split|]; intro; [reflexivity | exact E | reflexivity].
Qed.

(** X3.  Deleting a live id succeeds and removes every task with that id
    and no other: the remaining tasks keep their order, [get_task] no
    longer finds the id, a second [delete_task] is refused, and the file
    holds the new collection.  When the ids are pairwise distinct exactly
    one task goes. *)
Theorem deleted_task_is_gone (task_id : Z) (w : World) :
  In task_id (ids w) ->
  exists w',
    delete_task task_id w = (Ok (true, "Задача успешно удалена"), w')
    /\ tasks w' = filter (fun t => negb (id t =? task_id)) (tasks w)
    /\ (forall t, In t (tasks w') <-> In t (tasks w) /\ id t <> task_id)
    /\ get_task task_id w' = (Ok None, w')
    /\ delete_task task_id w' = (Ok (false, "Задача не найдена"), w')
    /\ disk w' = Json (map to_dict (tasks w'))
    /\ reads w' = reads w
    /\ (NoDup (ids w) -> List.length (tasks w) = S (List.length (tasks w'))).
Proof.
  intro Hin. destruct (find_id_live task_id (tasks w) Hin) as [t Ht].
  eexists. split; [apply (delete_task_found task_id w t Ht)|].
  cbv zeta. cbn [tasks disk reads].
  assert (Hgone : find (fun t => id t =? task_id)
                    (filter (fun t => negb (id t =? task_id)) (tasks w)) = None).
  { apply find_id_none. rewrite filter_ids. intro H. apply filter_In in H.
    destruct H as [_ H]. rewrite Z.eqb_refl in H. discriminate. }
  split; [reflexivity|]. split.
  { intro u. rewrite filter_In, negb_true_iff, Z.eqb_neq. reflexivity. }
  split.
  { unfold get_task, bind, get_tasks, ret. cbn [tasks]. rewrite Hgone.
    reflexivity. }
  split; [apply delete_task_missing; exact Hgone|].
  split; [reflexivity|]. split; [reflexivity|].
  intro Hnd. apply filter_drops_one; assumption.
Qed.

(** X4.  [get_task] returns the first task of the collection that has the
    id, and nothing exactly when no task has it; it changes nothing. *)
Theorem get_task_finds_first (task_id : Z) (w : World) :
  exists r,
    get_task task_id w = (Ok r, w)
    /\ match r with
       | Some t =>
           id t = task_id
           /\ exists pre post,
                tasks w = (pre ++ t :: post)%list
                /\ ~ In task_id (map id pre)
       | None => ~ In task_id (ids w)
       end.
Proof.
  unfold get_task, bind, get_tasks, ret.
  destruct (find (fun t => id t =? task_id) (tasks w)) as [t|] eqn:E.
  - exists (Some t). split; [reflexivity|].
    split; [apply (find_id_some _ _ _ E)|].
    destruct (mutate_first_split task_id (fun u => u) (tasks w) t E)
      as (pre & post & Hts & _ & Hpre).
    exists pre, post. split; [exact Hts | apply find_id_none; exact Hpre].
  - exists None. split; [reflexivity | apply find_id_none; exact E].
Qed.


(** Whether a mutation reported success to its caller. *)
Definition succeeded (x : outcome) : bool :=
  match x with
  | Created (Ok (Some _, _)) => true
  | Flagged (Ok (true, _)) => true
  | _ => false
  end.

Lemma exec_saves_or_skips (o : op) (w : World) :
  if succeeded (fst (exec o w))
  then disk (snd (exec o w)) = Json (map to_dict (tasks (snd (exec o w))))
  else snd (exec o w) = w.
Proof.
  destruct o as [t0 d0 | i t0 d0 s0 | i]; unfold exec.
  - destruct (truthy (strip t0)) eqn:E.
    + rewrite (create_task_ok t0 d0 w E). reflexivity.
    + rewrite (create_task_blank t0 d0 w E). reflexivity.
  - destruct (find (fun t => id t =? i) (tasks w)) eqn:E.
    + rewrite (update_task_found i t0 d0 s0 w t E). reflexivity.
    + rewrite (update_task_missing i t0 d0 s0 w E). reflexivity.
  - destruct (find (fun t => id t =? i) (tasks w)) eqn:E.
    + rewrite (delete_task_found i w t E). reflexivity.
    + rewrite (delete_task_missing i w E). reflexivity.
Qed.

(** X5.  A mutation that reports success has written the whole collection
    to the file before it returns; one that reports failure has changed
    nothing at all, in memory or on disk. *)
Theorem mutation_saves_or_changes_nothing (o : op) (w : World) :
  (succeeded (fst (exec o w)) = true /\
   disk (snd (exec o w)) = Json (map to_dict (tasks (snd (exec o w)))))
  \/ (succeeded (fst (exec o w)) = false /\ snd (exec o w) = w).
Proof.
  pose proof (exec_saves_or_skips o w) as H.
  destruct (succeeded (fst (exec o w))); [left | right]; split; auto.
Qed.

(** X6.  After any successful mutation of a store in a reachable state, a
    manager constructed afresh over the file holds exactly the tasks in
    memory: no explicit save is needed. *)
Theorem reload_after_successful_mutation (o : op) (w : World) :
  (forall n, clock n <> "") ->
  reachable w ->
  succeeded (fst (exec o w)) = true ->
  TaskManager_init (fresh (snd (exec o w))) = (Ok tt, snd (exec o w)).
Proof.
  intros Hc Hw Hok.
  pose proof (reachable_stamped _ Hc (reach_exec o w Hw)) as Hs.
  pose proof (exec_saves_or_skips o w) as Hd. rewrite Hok in Hd.
  destruct (snd (exec o w)) as [ts d r]. cbn [tasks disk] in *. subst d.
  unfold TaskManager_init, load_tasks, fresh, bind, set_tasks, read_file.
  cbn [disk tasks reads].
  rewrite (mapM_from_dict_to_dict ts _ Hs). reflexivity.
Qed.

(** X7.  Constructing a manager when the file does not exist, or holds text
    that is not JSON, gives the empty collection without an error; the file
    is left as it is and the clock is not read. *)
Theorem load_without_usable_file (w : World) :
  disk w = NoFile \/ disk w = BadJson ->
  TaskManager_init w = (Ok tt, mkWorld [] (disk w) (reads w)).
Proof.
  unfold TaskManager_init, load_tasks, bind, set_tasks, read_file.
  cbn [disk reads]. intros [H|H]; rewrite H; reflexivity.
Qed.

(** An object of the file lacks one of the four keys [from_dict] indexes. *)
Definition incomplete (d : TaskDict) : Prop :=
  d_id d = None \/ d_title d = None \/ d_description d = None
  \/ d_status d = None.

(** The task [t] is what [from_dict] makes of the object [d]: the four
    fields of the object, and its timestamps where it has them. *)
Definition loaded_from (d : TaskDict) (t : Task) : Prop :=
  d_id d = Some (id t)
  /\ d_title d = Some (title t)
  /\ d_description d = Some (description t)
  /\ d_status d = Some (status t)
  /\ (forall s, d_created_at d = Some s -> s <> "" -> created_at t = s)
  /\ (forall s, d_updated_at d = Some s -> s <> "" -> updated_at t = s).

Lemma or_now_frame (given : option string) (w : World) :
  exists s w',
    or_now given w = (Ok s, w')
    /\ tasks w' = tasks w /\ disk w' = disk w
    /\ (forall x, given = Some x -> x <> "" -> s = x).
Proof.
  destruct given as [x|]; simpl.
  - destruct (truthy x) eqn:E.
    + exists x, w. repeat split. intros y Hy _. injection Hy as <-. reflexivity.
    + eexists _, _. split; [reflexivity|]. repeat split.
      intros y Hy Hne. injection Hy as <-. apply truthy_true_iff in Hne.
      congruence.
  - eexists _, _. split; [reflexivity|]. repeat split. discriminate.
Qed.

Lemma from_dict_outcome (d : TaskDict) (w : World) :
  (incomplete d /\
   exists key,
     from_dict d w = (Raise (KeyError key), w)
     /\ In key ["id"; "title"; "description"; "status"])
  \/ (~ incomplete d /\
      exists t w',
        from_dict d w = (Ok t, w') /\ loaded_from d t
        /\ tasks w' = tasks w /\ disk w' = disk w).
Proof.
  unfold from_dict, Task_init, item, bind, raise, ret, incomplete, loaded_from.
  destruct (d_id d) as [i|];
    [|left; split; [left; reflexivity|]; exists "id"; split;
        [reflexivity | simpl; auto]].
  destruct (d_title d) as [ti|];
    [|left; split; [right; left; reflexivity|]; exists "title"; split;
        [reflexivity | simpl; auto]].
  destruct (d_description d) as [de|];
    [|left; split; [right; right; left; reflexivity|]; exists "description";
        split; [reflexivity | simpl; auto]].
  destruct (d_status d) as [st|];
    [|left; split; [right; right; right; reflexivity|]; exists "status"; split;
        [reflexivity | simpl; auto 6]].
  right. split; [intros [H|[H|[H|H]]]; discriminate|].
  cbv beta iota.
  destruct (or_now_frame (d_created_at d) w) as (c & w1 & -> & Ht1 & Hd1 & Hc).
  destruct (or_now_frame (d_updated_at d) w1) as (u & w2 & -> & Ht2 & Hd2 & Hu).
  eexists _, w2. split; [reflexivity|]. cbn [id title description status
    created_at updated_at]. repeat split; try congruence; assumption.
Qed.

Lemma mapM_from_dict_raises (objs : list TaskDict) (w : World) :
  Exists incomplete objs ->
  exists key w',
    mapM from_dict objs w = (Raise (KeyError key), w')
    /\ In key ["id"; "title"; "description"; "status"]
    /\ tasks w' = tasks w /\ disk w' = disk w.
Proof.
  revert w. induction objs as [|d objs IH]; intros w H; [inversion H|].
  cbn [mapM]. unfold bind at 1.
  destruct (from_dict_outcome d w)
    as [(_ & key & -> & Hkey) | (Hc & t & w1 & -> & _ & Ht & Hd)].
  - exists key, w. repeat split. exact Hkey.
  - inversion H as [? ? Hd0 | ? ? Hrest]; subst; [contradiction|].
    destruct (IH w1 Hrest) as (key & w' & E & Hkey & Ht' & Hd').
    unfold bind at 1. rewrite E. exists key, w'.
    repeat split; [exact Hkey | congruence | congruence].
Qed.


(** X8.  Loading is all or nothing: when some object of the file lacks the
    key "id", "title", "description" or "status", constructing the manager
    raises [KeyError] for such a key; no task is loaded (not even the
    objects before it) and the file is untouched. *)
Theorem load_raises_on_missing_key (objs : list TaskDict) (w : World) :
  disk w = Json objs ->
  Exists incomplete objs ->
  exists key w',
    TaskManager_init w = (Raise (KeyError key), w')
    /\ In key ["id"; "title"; "description"; "status"]
    /\ tasks w' = []
    /\ disk w' = disk w.
Proof.
  intros Hd Hbad.
  unfold TaskManager_init, load_tasks, bind at 1 2, set_tasks at 1, read_file.
  cbn [disk]. rewrite Hd.
  destruct (mapM_from_dict_raises objs (mkWorld [] (Json objs) (reads w)) Hbad)
    as (key & w' & E & Hkey & Ht & Hdk).
  unfold bind. rewrite E. exists key, w'. repeat split; assumption.
Qed.



(** X10.  [filter_tasks] without a status and without a keyword ([None] or
    the empty string) returns the whole collection, in order, and changes
    nothing. *)
Theorem filter_without_criteria_returns_all (status0 keyword : option string)
    (w : World) :
  truthy_opt status0 = false ->
  truthy_opt keyword = false ->
  filter_tasks status0 keyword w = (Ok (tasks w), w).
Proof.
  intros Hs Hk. unfold filter_tasks, bind, get_tasks, ret.
  destruct status0 as [s|]; destruct keyword as [k|]; cbn [truthy_opt] in *;
    try rewrite Hs; try rewrite Hk; reflexivity.
Qed.

(** X11.  A lone criterion selects by itself: with a non-empty status and
    no keyword, [filter_tasks] returns exactly the tasks with that status;
    with a non-empty keyword and no status, exactly the tasks whose title
    or description contains the keyword, case ignored, whatever their
    status.  The order is that of the collection. *)
Theorem filter_by_one_criterion (s k : string) (w : World) :
  s <> "" ->
  k <> "" ->
  (exists l,
     filter_tasks (Some s) None w = (Ok l, w)
     /\ l = filter (fun t => (status t =? s)%string) (tasks w)
     /\ forall t, In t l <-> In t (tasks w) /\ status t = s)
  /\ (exists l,
        filter_tasks None (Some k) w = (Ok l, w)
        /\ l = filter
                 (fun t =>
                    str_in (lower k) (lower (title t))
                    || str_in (lower k) (lower (description t)))
                 (tasks w)
        /\ forall t,
             In t l
             <-> In t (tasks w)
                 /\ (contains_ci k (title t) \/ contains_ci k (description t))).
Proof.
  intros Hs Hk. apply truthy_true_iff in Hs, Hk.
  unfold filter_tasks, bind, get_tasks, ret. rewrite Hs, Hk. split.
  - eexists. split; [reflexivity|]. split; [reflexivity|].
    intro t. rewrite filter_In, String.eqb_eq. reflexivity.
  - eexists. split; [reflexivity|]. split; [reflexivity|].
    intro t. unfold contains_ci.
    rewrite filter_In, orb_true_iff, !str_in_spec. reflexivity.
Qed.

(** X12.  Whatever its arguments, [filter_tasks] changes nothing and
    returns tasks of the collection; a second criterion can only narrow
    the selection: what both criteria select, each one selects alone. *)
Theorem filter_narrows (status0 keyword : option string) (w : World) :
  exists both by_status by_keyword,
    filter_tasks status0 keyword w = (Ok both, w)
    /\ filter_tasks status0 None w = (Ok by_status, w)
    /\ filter_tasks None keyword w = (Ok by_keyword, w)
    /\ forall t,
         In t both <-> In t by_status /\ In t by_keyword /\ In t (tasks w).
Proof.
  unfold filter_tasks, bind, get_tasks, ret.
  eexists _, _, _. split; [reflexivity|]. split; [reflexivity|].
  split; [reflexivity|]. intro t.
  destruct status0 as [s|]; [destruct (truthy s)|];
    (destruct keyword as [k|]; [destruct (truthy k)|]);
    rewrite ?filter_In; clear strip clock; intuition.
Qed.

(** X13.  Ids stay strictly positive: from a store whose ids are all
    positive (the empty store is one), no sequence of mutations produces
    an id below 1. *)
Theorem ids_stay_positive (ops : list op) (w : World) :
  Forall (fun i => 0 < i) (ids w) ->
  Forall (fun i => 0 < i) (ids (snd (run ops w))).
Proof.
  revert w. induction ops as [|o ops IH]; intros w H; simpl; [exact H|].
  assert (H1 : Forall (fun i => 0 < i) (ids (snd (exec o w)))).
  { destruct o as [t0 d0 | i t0 d0 s0 | i]; unfold exec.
    - destruct (truthy (strip t0)) eqn:E.
      + rewrite (create_task_ok t0 d0 w E). unfold ids at 1. cbn [snd tasks].
        rewrite map_app. apply Forall_app. split; [exact H|].
        constructor; [|constructor]. cbn [id].
        destruct (ids w) as [|x l] eqn:El; [reflexivity|].
        rewrite <- El in *. rewrite Forall_forall in H.
        assert (Hx : In x (ids w)) by (rewrite El; left; reflexivity).
        pose proof (H x Hx). pose proof (fresh_id_above w x Hx). lia.
      + rewrite (create_task_blank t0 d0 w E). exact H.
    - destruct (find (fun t => id t =? i) (tasks w)) eqn:E.
      + rewrite (update_task_found i t0 d0 s0 w t E). unfold ids; cbn [snd tasks].
        rewrite mutate_first_ids; [exact H|]. intro u. cbn [set_updated_at id].
        repeat (rewrite assign_if_given_id; [|reflexivity]). reflexivity.
      + rewrite (update_task_missing i t0 d0 s0 w E). exact H.
    - destruct (find (fun t => id t =? i) (tasks w)) eqn:E.
      + rewrite (delete_task_found i w t E). unfold ids; cbn [snd tasks].
        rewrite filter_ids. apply Forall_forall. intros x Hx.
        apply filter_In in Hx. rewrite Forall_forall in H. apply H. apply Hx.
      + rewrite (delete_task_missing i w E). exact H. }
  destruct (exec o w) as [x w1]. cbn [snd] in H1.
  specialize (IH w1 H1). destruct (run ops w1) as [xs w2]. exact IH.
Qed.

Lemma max_default_upto (k : nat) :
  max_default (map Z.of_nat (seq 1 k)) 0 = Z.of_nat k.
Proof.
  assert (H : forall n a,
            fold_left Z.max (map Z.of_nat (seq (S a) n)) (Z.of_nat a)
            = Z.of_nat (a + n)).
  { induction n as [|n IHn]; intro a; cbn [seq map fold_left].
    - rewrite Nat.add_0_r. reflexivity.
    - replace (Z.max (Z.of_nat a) (Z.of_nat (S a))) with (Z.of_nat (S a)) by lia.
      rewrite IHn. f_equal. lia. }
  destruct k as [|k]; [reflexivity|]. cbn [seq map max_default].
  apply (H k 1%nat).
Qed.

(** X14.  A store that starts empty numbers its tasks 1, 2, 3, ...: after
    [n] creations with titles that are not blank, the live ids are
    1 to [n] in order. *)
Theorem fresh_store_numbers_from_one (reqs : list (string * string)) (w : World) :
  tasks w = [] ->
  Forall (fun r => strip (fst r) <> "") reqs ->
  ids (snd (run (map (fun r => Create (fst r) (snd r)) reqs) w))
  = map Z.of_nat (seq 1 (List.length reqs)).
Proof.
  intros He Hreq.
  assert (G : forall v k,
             ids v = map Z.of_nat (seq 1 k) ->
             ids (snd (run (map (fun r => Create (fst r) (snd r)) reqs) v))
             = map Z.of_nat (seq 1 (k + List.length reqs))).
  { induction Hreq as [|r reqs Hr Hreqs IH]; intros v k Hv.
    - simpl. rewrite Nat.add_0_r. exact Hv.
    - cbn [map run exec]. apply truthy_true_iff in Hr.
      rewrite (create_task_ok (fst r) (snd r) v Hr).
      match goal with
      | |- context [run ?o ?x] =>
          specialize (IH x (S k)); destruct (run o x) as [xs w2]
      end.
      cbn [snd] in *. cbn [List.length]. rewrite <- Nat.add_succ_comm.
      apply IH. unfold ids at 1. cbn [tasks]. rewrite map_app. cbn [map id].
      fold (ids v). rewrite Hv, max_default_upto, seq_S, map_app.
      cbn [map Nat.add]. do 2 f_equal. lia. }
  apply (G w 0%nat). unfold ids. rewrite He. reflexivity.
Qed.


Lemma find_mutate_first (i j : Z) (f : Task -> Task) (ts : list Task) :
  (forall u, id (f u) = id u) ->
  find (fun t => id t =? i) (mutate_first j f ts)
  = if i =? j then option_map f (find (fun t => id t =? i) ts)
    else find (fun t => id t =? i) ts.
Proof.
  intro Hf. induction ts as [|t ts IH]; cbn [mutate_first find].
  - destruct (i =? j); reflexivity.
  - destruct (Z.eqb_spec (id t) j) as [Ej|Nj]; cbn [find].
    + rewrite Hf. destruct (Z.eqb_spec i j) as [Eij|Nij].
      * subst. rewrite Z.eqb_refl. reflexivity.
      * destruct (Z.eqb_spec (id t) i) as [Ei|Ni]; [congruence | reflexivity].
    + destruct (Z.eqb_spec (id t) i) as [Ei|Ni].
      * destruct (Z.eqb_spec i j) as [Eij|Nij]; [congruence | reflexivity].
      * exact IH.
Qed.

Lemma find_filter_other (i j : Z) (ts : list Task) :
  i <> j ->
  find (fun t => id t =? i) (filter (fun t => negb (id t =? j)) ts)
  = find (fun t => id t =? i) ts.
Proof.
  intro Hij. induction ts as [|t ts IH]; cbn [filter find]; [reflexivity|].
  destruct (Z.eqb_spec (id t) j) as [Ej|Nj]; cbn [negb find].
  - destruct (Z.eqb_spec (id t) i) as [Ei|Ni]; [congruence | exact IH].
  - destruct (id t =? i); [reflexivity | exact IH].
Qed.

(** X15.  A mutation touches the task it names and no other: a task that
    [get_task] finds under an id before and after one mutation keeps its id
    and its [created_at], and is the very same task unless the mutation was
    an update of that id. *)
Theorem mutation_touches_named_task_only (o : op) (w : World) (i : Z)
    (t t' : Task) :
  get_task i w = (Ok (Some t), w) ->
  get_task i (snd (exec o w)) = (Ok (Some t'), snd (exec o w)) ->
  id t' = id t
  /\ created_at t' = created_at t
  /\ ((forall a b c, o <> Update i a b c) -> t' = t).
Proof.
  unfold get_task, bind, get_tasks, ret. intros H H'.
  injection H as H. injection H' as H'.
  destruct o as [t0 d0 | j t0 d0 s0 | j]; unfold exec in H'.
  - destruct (truthy (strip t0)) eqn:E.
    + rewrite (create_task_ok t0 d0 w E) in H'. cbn [snd tasks] in H'.
      rewrite (find_id_app_some i _ _ t H) in H'. injection H' as <-.
      repeat split.
    + rewrite (create_task_blank t0 d0 w E) in H'. cbn [snd] in H'.
      rewrite H in H'. injection H' as <-. repeat split.
  - destruct (find (fun u => id u =? j) (tasks w)) as [t1|] eqn:E.
    + rewrite (update_task_found j t0 d0 s0 w t1 E) in H'. cbn [snd tasks] in H'.
      rewrite find_mutate_first in H'.
      * rewrite H in H'. destruct (Z.eqb_spec i j) as [Eij|Nij].
        -- cbn [option_map] in H'. injection H' as <-.
           cbn [set_updated_at id created_at].
           split; [repeat (rewrite assign_if_given_id; [|reflexivity]);
                   reflexivity|].
           split; [repeat (rewrite assign_if_given_created; [|reflexivity]);
                   reflexivity|].
           intro Hno. exfalso. apply (Hno t0 d0 s0). rewrite Eij. reflexivity.
        -- injection H' as <-. repeat split.
      * intro u. cbn [set_updated_at id].
        repeat (rewrite assign_if_given_id; [|reflexivity]). reflexivity.
    + rewrite (update_task_missing j t0 d0 s0 w E) in H'. cbn [snd] in H'.
      rewrite H in H'. injection H' as <-. repeat split.
  - destruct (find (fun u => id u =? j) (tasks w)) as [t1|] eqn:E.
    + rewrite (delete_task_found j w t1 E) in H'. cbn [snd tasks] in H'.
      destruct (Z.eq_dec i j) as [Eij|Nij].
      * exfalso. subst j.
        assert (Hnone : find (fun u => id u =? i)
                          (filter (fun u => negb (id u =? i)) (tasks w)) = None).
        { apply find_id_none. rewrite filter_ids. intro Hin.
          apply filter_In in Hin. destruct Hin as [_ Hin].
          rewrite Z.eqb_refl in Hin. discriminate. }
        rewrite Hnone in H'. discriminate.
      * rewrite (find_filter_other i j _ Nij), H in H'. injection H' as <-.
        repeat split.
    + rewrite (delete_task_missing j w E) in H'. cbn [snd] in H'.
      rewrite H in H'. injection H' as <-. repeat split.
Qed.

(** The dictionary [get_statistics] returns. *)
Record Statistics : Type := mkStatistics {
  total : Z;
  active : Z;
  in_progress : Z;
  completed : Z
}.

(** [len([t for t in self.tasks if t.status == label])] *)
Definition count_status (label : string) (ts : list Task) : Z :=
  len (filter (fun t => (status t =? label)%string) ts).

(** [TaskManager.get_statistics] *)
Definition get_statistics : M Statistics :=
  ts <- get_tasks ;;
  ret {| total := len ts;
         active := count_status "активная" ts;
         in_progress := count_status "в процессе" ts;
         completed := count_status "завершенная" ts |}.

(** The status is one of the three labels the statistics count. *)
Definition recognized (t : Task) : Prop :=
  status t = "активная" \/ status t = "в процессе" \/ status t = "завершенная".

(** The boolean form of [recognized]. *)
Definition recognizedb (t : Task) : bool :=
  (status t =? "активная")%string || (status t =? "в процессе")%string
  || (status t =? "завершенная")%string.

Lemma recognizedb_iff (t : Task) : recognizedb t = true <-> recognized t.
Proof.
  unfold recognizedb, recognized.
  rewrite !orb_true_iff, !String.eqb_eq, or_assoc. reflexivity.
Qed.

Lemma len_step {A : Type} (a : A) (l : list A) : len (a :: l) = len l + 1.
Proof.
  unfold len. cbn [List.length]. lia.
Qed.

(** Every task is in one bucket or in none. *)
Lemma count_status_partition (ts : list Task) :
  count_status "активная" ts + count_status "в процессе" ts
  + count_status "завершенная" ts
  + len (filter (fun t => negb (recognizedb t)) ts)
  = len ts.
Proof.
  unfold count_status, recognizedb.
  induction ts as [|t ts IH]; [reflexivity|]. cbn [filter].
  destruct (String.eqb_spec (status t) "активная") as [E1|N1];
    destruct (String.eqb_spec (status t) "в процессе") as [E2|N2];
    destruct (String.eqb_spec (status t) "завершенная") as [E3|N3];
    try (exfalso; congruence);
    cbn [orb negb]; rewrite !len_step; lia.
Qed.

Lemma unrecognized_none (ts : list Task) :
  len (filter (fun t => negb (recognizedb t)) ts) = 0 <-> Forall recognized ts.
Proof.
  induction ts as [|t ts IH]; cbn [filter].
  - split; [constructor | reflexivity].
  - rewrite Forall_cons_iff, <- IH, <- recognizedb_iff.
    destruct (recognizedb t); cbn [negb].
    + split; [intro H; split; [reflexivity | exact H] | intros [_ H]; exact H].
    + rewrite len_step. unfold len. split; [lia | intros [H _]; discriminate].
Qed.

Lemma count_status_buckets (ts : list Task) :
  0 <= count_status "активная" ts
  /\ 0 <= count_status "в процессе" ts
  /\ 0 <= count_status "завершенная" ts
  /\ count_status "активная" ts + count_status "в процессе" ts
     + count_status "завершенная" ts <= len ts
  /\ (count_status "активная" ts + count_status "в процессе" ts
      + count_status "завершенная" ts = len ts
      <-> Forall recognized ts).
Proof.
  pose proof (count_status_partition ts) as Hp.
  rewrite <- unrecognized_none.
  assert (Hn : forall (A : Type) (l : list A), 0 <= len l)
    by (intros; unfold len; lia).
  pose proof (Hn _ (filter (fun t => negb (recognizedb t)) ts)).
  unfold count_status in *.
  repeat split; try apply Hn; lia.
Qed.

(** X16.  [get_statistics] changes nothing and counts every task in
    [total]; the three buckets are never negative and never add up to more
    than [total], and they add up to [total] exactly when every task has
    one of the three labels "активная", "в процессе", "завершенная": a task
    with any other status is in [total] and in no bucket. *)
Theorem statistics_buckets_within_total (w : World) :
  exists st,
    get_statistics w = (Ok st, w)
    /\ total st = len (tasks w)
    /\ 0 <= active st /\ 0 <= in_progress st /\ 0 <= completed st
    /\ active st + in_progress st + completed st <= total st
    /\ (active st + in_progress st + completed st = total st
        <-> Forall recognized (tasks w)).
Proof.
  eexists. split; [reflexivity|]. cbn [total active in_progress completed].
  split; [reflexivity|]. apply count_status_buckets.
Qed.

End Store.

(* ------------------------------------------------------------------ *)
(** ** The store at work *)
(* ------------------------------------------------------------------ *)

(** No file yet, no task in memory, the clock never read. *)
Definition empty_world : World := mkWorld [] NoFile 0.

(** A clock that moves forward. *)
Definition steady_clock (n : nat) : string :=
  match n with
  | 0%nat => "2026-11-03T09:15:02.331870"
  | 1%nat => "2026-11-03T09:15:02.331884"
  | 2%nat => "2026-11-03T09:16:40.002113"
  | 3%nat => "2026-11-03T09:16:40.002125"
  | 4%nat => "2026-11-03T09:21:07.910442"
  | _ => "2026-11-03T09:21:07.910455"
  end.

(** The local clock of the night summer time ends: the third reading is
    taken after the clock was set back from 03:00 to 02:00. *)
Definition autumn_clock (n : nat) : string :=
  match n with
  | 0%nat => "2026-10-25T02:59:58.120000"
  | 1%nat => "2026-10-25T02:59:58.120011"
  | _ => "2026-10-25T02:00:03.480000"
  end.

Lemma steady_clock_set (n : nat) : steady_clock n <> "".
Proof.
  do 5 (destruct n as [|n]; [discriminate|]). discriminate.
Qed.

(** Create two tasks, delete the newer one, create a third. *)
Definition reuse_ops : list op :=
  [Create "A" ""; Create "B" ""; Delete 2; Create "C" ""].

(** C1, counterexample.  From the empty store, [create], [create],
    [delete(2)], [create] hands out the ids 1, 2 and 2 again: the id of the
    deleted task is assigned a second time. *)
Lemma deleted_id_is_assigned_again :
  ~ NoDup (assigned_ids (fst (run strip_ascii steady_clock reuse_ops empty_world))).
Proof.
  vm_compute. intro H.
  inversion H as [|? ? _ H2]. inversion H2 as [|? ? H3 _].
  apply H3. left. reflexivity.
Qed.

Lemma ids_stay_unique_and_exceed_live_witness :
  NoDup (ids (snd (run strip_ascii steady_clock reuse_ops empty_world))).
Proof.
  exact (proj1 (ids_stay_unique_and_exceed_live strip_ascii steady_clock
                  reuse_ops empty_world (NoDup_nil Z))).
Defined.

Lemma empty_world_reachable : reachable strip_ascii steady_clock empty_world.
Proof.
  apply (reach_init strip_ascii steady_clock empty_world). reflexivity.
Defined.

Lemma save_then_load_roundtrip_witness :
  tasks (snd (save_tasks (snd (create_task strip_ascii steady_clock
                                 "Write report" "for Monday" empty_world))))
  = tasks (snd (create_task strip_ascii steady_clock
                  "Write report" "for Monday" empty_world)).
Proof.
  exact (proj2 (save_then_load_roundtrip strip_ascii steady_clock empty_world
                  "Write report" "for Monday" steady_clock_set
                  empty_world_reachable)).
Defined.

(** The three tasks of the specification's example. *)
Definition bug_tasks : list Task :=
  [ mkTask 1 "fix bug" "" "active"
      "2026-11-03T09:15:02.331870" "2026-11-03T09:15:02.331884";
    mkTask 2 "fix bug" "" "completed"
      "2026-11-03T09:16:40.002113" "2026-11-03T09:21:07.910442";
    mkTask 3 "other" "" "completed"
      "2026-11-03T09:16:41.000000" "2026-11-03T09:21:08.000000" ].

Definition bug_world : World := mkWorld bug_tasks NoFile 5.

(** C7, counterexample.  An empty status counts as no status: on the three
    tasks above, [filter(status="", keyword="bug")] returns the two tasks
    that mention the keyword, none of which has the empty status, where the
    specification selects no task. *)
Lemma empty_status_is_not_filtered_on :
  fst (filter_tasks lower_ascii (Some "") (Some "bug") bug_world)
  <> Ok (spec_filter lower_ascii "" "bug" (tasks bug_world)).
Proof.
  vm_compute. intro H. discriminate H.
Qed.

Lemma filter_status_and_keyword_witness :
  filter_tasks lower_ascii (Some "completed") (Some "BUG") bug_world
  = (Ok (spec_filter lower_ascii "completed" "BUG" (tasks bug_world)), bug_world).
Proof.
  refine (proj1 (filter_status_and_keyword lower_ascii bug_world
                   "completed" "BUG" eq_refl _)).
  discriminate.
Defined.

(** The second task alone is selected in the specification's example. *)
Example filter_completed_bug :
  fst (filter_tasks lower_ascii (Some "completed") (Some "bug") bug_world)
  = Ok [mkTask 2 "fix bug" "" "completed"
          "2026-11-03T09:16:40.002113" "2026-11-03T09:21:07.910442"].
Proof. reflexivity. Qed.

(** A task created just before the clock is set back, its status changed
    just after. *)
Definition autumn_ops : list op :=
  [Create "Backup" "nightly"; Update 1 None None (Some "завершенная")].

(** C8, counterexample.  [updated_at] becomes the reading of the clock,
    which may be earlier than the one stored: the task created at 02:59:58
    and updated after the clock went back an hour carries 02:00:03, before
    its previous [updated_at] (and before its [created_at]). *)
Lemma updated_at_can_move_back :
  exists before after,
    find (fun t => id t =? 1)
      (tasks (snd (run strip_ascii autumn_clock [Create "Backup" "nightly"]
                     empty_world))) = Some before
    /\ find (fun t => id t =? 1)
         (tasks (snd (run strip_ascii autumn_clock autumn_ops empty_world)))
       = Some after
    /\ updated_at before = "2026-10-25T02:59:58.120011"
    /\ updated_at after = "2026-10-25T02:00:03.480000"
    /\ String.ltb (updated_at after) (updated_at before) = true.
Proof.
  eexists _, _. split; [vm_compute; reflexivity|].
  split; [vm_compute; reflexivity|]. repeat split.
Qed.

Lemma update_changes_supplied_fields_only_witness :
  exists pre post task',
    tasks bug_world = (pre ++ nth 1 bug_tasks (mkTask 0 "" "" "" "" "") :: post)%list
    /\ update_task steady_clock 2 None None (Some "active") bug_world
       = (Ok (true, "Задача успешно обновлена"),
          mkWorld (pre ++ task' :: post)
            (Json (map to_dict (pre ++ task' :: post))) 6)
    /\ title task' = "fix bug"
    /\ status task' = "active"
    /\ created_at task' = "2026-11-03T09:16:40.002113"
    /\ updated_at task' = "2026-11-03T09:21:07.910455".
Proof.
  destruct (update_changes_supplied_fields_only steady_clock bug_world 2
              None None (Some "active")
              (nth 1 bug_tasks (mkTask 0 "" "" "" "" "")) eq_refl)
    as (pre & post & task' & H1 & H2 & _ & _ & H5 & _ & H7 & H8 & H9).
  exists pre, post, task'. repeat split; assumption.
Defined.

Lemma unknown_id_is_refused_witness :
  update_task steady_clock 7 None None (Some "completed") bug_world
  = (Ok (false, "Задача не найдена"), bug_world)
  /\ delete_task 7 bug_world = (Ok (false, "Задача не найдена"), bug_world).
Proof.
  apply (unknown_id_is_refused steady_clock bug_world 7 None None
           (Some "completed")).
  vm_compute. intuition discriminate.
Defined.

(* ------------------------------------------------------------------ *)
(** ** More of the store at work *)
(* ------------------------------------------------------------------ *)

Lemma created_task_is_found_witness :
  exists task w',
    create_task strip_ascii steady_clock "  Write report " "for Monday" empty_world
    = (Ok (Some task, "Задача успешно создана"), w')
    /\ get_task (id task) w' = (Ok (Some task), w')
    /\ title task = "  Write report ".
Proof.
  destruct (created_task_is_found strip_ascii steady_clock
              "  Write report " "for Monday" empty_world
              ltac:(vm_compute; discriminate))
    as (task & w' & H1 & H2 & _ & _ & H5 & _).
  exists task, w'. repeat split; assumption.
Defined.

Lemma deleted_task_is_gone_witness :
  exists w',
    delete_task 2 bug_world = (Ok (true, "Задача успешно удалена"), w')
    /\ get_task 2 w' = (Ok None, w')
    /\ delete_task 2 w' = (Ok (false, "Задача не найдена"), w').
Proof.
  destruct (deleted_task_is_gone 2 bug_world
              ltac:(right; left; reflexivity))
    as (w' & H1 & _ & _ & H4 & H5 & _).
  exists w'. repeat split; assumption.
Defined.

Lemma reload_after_successful_mutation_witness :
  TaskManager_init steady_clock
    (fresh (snd (exec strip_ascii steady_clock (Create "A" "") empty_world)))
  = (Ok tt, snd (exec strip_ascii steady_clock (Create "A" "") empty_world)).
Proof.
  exact (reload_after_successful_mutation strip_ascii steady_clock
           (Create "A" "") empty_world steady_clock_set
           empty_world_reachable eq_refl).
Defined.

Lemma load_without_usable_file_witness :
  TaskManager_init steady_clock (mkWorld bug_tasks BadJson 0)
  = (Ok tt, mkWorld [] BadJson 0).
Proof.
  exact (load_without_usable_file steady_clock (mkWorld bug_tasks BadJson 0)
           (or_intror eq_refl)).
Defined.

(** A file whose second object has no title, and whose first has no
    timestamps. *)
Definition torn_file : list TaskDict :=
  [ mkDict (Some 1) (Some "plan") (Some "") (Some "активная") None None;
    mkDict (Some 2) None (Some "") (Some "активная")
      (Some "2026-11-03T09:16:40.002113") (Some "2026-11-03T09:16:40.002125") ].

(** A file written by hand: no timestamps on the first object, an empty
    [updated_at] on the second. *)
Definition bare_file : list TaskDict :=
  [ mkDict (Some 1) (Some "plan") (Some "") (Some "активная") None None;
    mkDict (Some 2) (Some "draft") (Some "v2") (Some "на паузе")
      (Some "2026-10-30T18:00:00") (Some "") ].

Lemma load_raises_on_missing_key_witness :
  exists key w',
    TaskManager_init steady_clock (mkWorld [] (Json torn_file) 0)
    = (Raise (KeyError key), w')
    /\ tasks w' = [].
Proof.
  destruct (load_raises_on_missing_key steady_clock torn_file
              (mkWorld [] (Json torn_file) 0) eq_refl
              ltac:(apply Exists_cons_tl, Exists_cons_hd; right; left;
                    reflexivity))
    as (key & w' & H1 & _ & H3 & _).
  exists key, w'. split; assumption.
Defined.

(** The torn file in full: the error names the missing key, and the
    reading of the clock taken for the first object is lost with it. *)
Example load_torn_file :
  TaskManager_init steady_clock (mkWorld [] (Json torn_file) 0)
  = (Raise (KeyError "title"), mkWorld [] (Json torn_file) 2).
Proof. reflexivity. Qed.


(** The bare file in full: three readings of the clock fill the three
    timestamps that are missing or empty. *)
Example load_bare_file :
  fst (get_all_tasks (snd (TaskManager_init steady_clock
                             (mkWorld [] (Json bare_file) 0))))
  = Ok [ mkTask 1 "plan" "" "активная"
           "2026-11-03T09:15:02.331870" "2026-11-03T09:15:02.331884";
         mkTask 2 "draft" "v2" "на паузе"
           "2026-10-30T18:00:00" "2026-11-03T09:16:40.002113" ].
Proof. reflexivity. Qed.

Lemma filter_without_criteria_returns_all_witness :
  filter_tasks lower_ascii (Some "") None bug_world = (Ok bug_tasks, bug_world).
Proof.
  exact (filter_without_criteria_returns_all lower_ascii (Some "") None
           bug_world eq_refl eq_refl).
Defined.

Lemma filter_by_one_criterion_witness :
  exists l,
    filter_tasks lower_ascii None (Some "BUG") bug_world = (Ok l, bug_world)
    /\ forall t,
         In t l
         <-> In t (tasks bug_world)
             /\ (contains_ci lower_ascii "BUG" (title t)
                 \/ contains_ci lower_ascii "BUG" (description t)).
Proof.
  destruct (proj2 (filter_by_one_criterion lower_ascii "completed" "BUG"
                     bug_world ltac:(discriminate) ltac:(discriminate)))
    as (l & H1 & _ & H3).
  exists l. split; assumption.
Defined.

Lemma ids_stay_positive_witness :
  Forall (fun i => 0 < i)
    (ids (snd (run strip_ascii steady_clock reuse_ops empty_world))).
Proof.
  exact (ids_stay_positive strip_ascii steady_clock reuse_ops empty_world
           (Forall_nil _)).
Defined.

Lemma fresh_store_numbers_from_one_witness :
  ids (snd (run strip_ascii steady_clock
              (map (fun r => Create (fst r) (snd r))
                 [("plan", ""); ("draft", "v2"); ("review", "")])
              empty_world))
  = map Z.of_nat (seq 1 3).
Proof.
  apply (fresh_store_numbers_from_one strip_ascii steady_clock
           [("plan", ""); ("draft", "v2"); ("review", "")] empty_world eq_refl).
  repeat constructor; vm_compute; discriminate.
Defined.

Lemma mutation_touches_named_task_only_witness :
  created_at
    (mkTask 2 "fix bug" "" "active"
       "2026-11-03T09:16:40.002113" "2026-11-03T09:21:07.910455")
  = created_at (nth 1 bug_tasks (mkTask 0 "" "" "" "" "")).
Proof.
  exact (proj1 (proj2
           (mutation_touches_named_task_only strip_ascii steady_clock
              (Update 2 None None (Some "active")) bug_world 2
              (nth 1 bug_tasks (mkTask 0 "" "" "" "" ""))
              (mkTask 2 "fix bug" "" "active"
                 "2026-11-03T09:16:40.002113" "2026-11-03T09:21:07.910455")
              eq_refl eq_refl))).
Defined.

(** The statistics of a store with a label of its own. *)
Example statistics_with_foreign_label :
  fst (get_statistics
         (mkWorld
            [ mkTask 1 "a" "" "активная" "t" "t";
              mkTask 2 "b" "" "завершенная" "t" "t";
              mkTask 3 "c" "" "на паузе" "t" "t";
              mkTask 4 "d" "" "завершенная" "t" "t" ] NoFile 0))
  = Ok (mkStatistics 4 1 0 2).
Proof. reflexivity. Qed.

End TaskStore.

(* ================================================================== *)
(** * ISO dates, for running the reports *)
(* ================================================================== *)

(** [datetime.fromisoformat] on the texts [isoformat()] writes
    ([YYYY-MM-DD], [YYYY-MM-DDTHH:MM:SS], [YYYY-MM-DDTHH:MM:SS.ffffff]) and
    [strftime('%Y-%m-%d')], over the proleptic Gregorian calendar.  The
    reports below are stated for any parser and any rendering; these are the
    ones their examples run with. *)
Module Iso.

Definition usec_per_day : Z := 86400000000.

Definition is_leap (y : Z) : bool :=
  (y mod 4 =? 0) && (negb (y mod 100 =? 0) || (y mod 400 =? 0)).

Definition days_before_year (y : Z) : Z :=
  let p := y - 1 in
  p * 365 + p / 4 - p / 100 + p / 400.

Definition days_in_month (y m : Z) : Z :=
  if m =? 2 then (if is_leap y then 29 else 28)
  else if (m =? 4) || (m =? 6) || (m =? 9) || (m =? 11) then 30
  else 31.

(** Days of the year [y] before the first of month [S k]. *)
Fixpoint days_before_month (y : Z) (k : nat) : Z :=
  match k with
  | O => 0
  | S j => days_before_month y j + days_in_month y (Z.of_nat k)
  end.

(** Days since 0001-01-01 of the date [y]-[m]-[d]. *)
Definition day_number (y m d : Z) : Z :=
  days_before_year y + days_before_month y (Z.to_nat (m - 1)) + (d - 1).

Definition digit (c : ascii) : option Z :=
  let n := Z.of_nat (nat_of_ascii c) in
  if (48 <=? n) && (n <=? 57) then Some (n - 48) else None.

(** [k] decimal digits at the head of [s]. *)
Fixpoint number (k : nat) (acc : Z) (s : string) : option (Z * string) :=
  match k with
  | O => Some (acc, s)
  | S j =>
      match s with
      | String c r =>
          match digit c with
          | Some d => number j (acc * 10 + d) r
          | None => None
          end
      | EmptyString => None
      end
  end.

Definition expect (c : ascii) (s : string) : option string :=
  match s with
  | String c' r => if Ascii.eqb c c' then Some r else None
  | EmptyString => None
  end.

Definition bind_opt {A B : Type} (o : option A) (k : A -> option B) : option B :=
  match o with
  | Some a => k a
  | None => None
  end.

Notation "' p <- o ;; k" := (bind_opt o (fun p => k))
  (at level 61, p pattern, o at next level, right associativity).

Definition parse_date (s : string) : option (Z * string) :=
  ' (y, s) <- number 4 0 s ;;
  ' s <- expect "-" s ;;
  ' (m, s) <- number 2 0 s ;;
  ' s <- expect "-" s ;;
  ' (d, s) <- number 2 0 s ;;
  if (1 <=? y) && (1 <=? m) && (m <=? 12) && (1 <=? d) && (d <=? days_in_month y m)
  then Some (day_number y m d, s)
  else None.

Definition parse_fraction (s : string) : option Z :=
  match s with
  | EmptyString => Some 0
  | String c r =>
      if Ascii.eqb c "." then
        ' (f, s) <- number 6 0 r ;;
        match s with
        | EmptyString => Some f
        | String _ _ => None
        end
      else None
  end.

Definition parse_time (s : string) : option Z :=
  match s with
  | EmptyString => Some 0
  | String c r =>
      if Ascii.eqb c "T" || Ascii.eqb c " " then
        ' (h, s) <- number 2 0 r ;;
        ' s <- expect ":" s ;;
        ' (mi, s) <- number 2 0 s ;;
        ' s <- expect ":" s ;;
        ' (se, s) <- number 2 0 s ;;
        ' f <- parse_fraction s ;;
        if (h <=? 23) && (mi <=? 59) && (se <=? 59)
        then Some (((h * 60 + mi) * 60 + se) * 1000000 + f)
        else None
      else None
  end.

Definition fromisoformat (s : string) : option Z :=
  ' (day, s) <- parse_date s ;;
  ' t <- parse_time s ;;
  Some (day * usec_per_day + t).

(** The year a day number falls in, searched downwards from an upper
    bound. *)
Fixpoint year_of (fuel : nat) (y n : Z) : Z :=
  match fuel with
  | O => y
  | S f => if days_before_year y <=? n then y else year_of f (y - 1) n
  end.

Fixpoint month_of (fuel : nat) (y m n : Z) : Z :=
  match fuel with
  | O => m
  | S f =>
      if days_before_month y (Z.to_nat (m - 1)) <=? n then m
      else month_of f y (m - 1) n
  end.

Definition digit_char (d : Z) : ascii := ascii_of_nat (Z.to_nat (48 + d mod 10)).

(** The last [k] decimal digits of [n], zero-padded. *)
Fixpoint digits (k : nat) (n : Z) (acc : string) : string :=
  match k with
  | O => acc
  | S j => digits j (n / 10) (String (digit_char n) acc)
  end.

(** [strftime('%Y-%m-%d')] of the date with the given day number. *)
Definition strftime_ymd (n : Z) : string :=
  let y := year_of 10 (n / 365 + 1) n in
  let r := n - days_before_year y in
  let m := month_of 12 y 12 r in
  let d := r - days_before_month y (Z.to_nat (m - 1)) + 1 in
  digits 4 y (String "-" (digits 2 m (String "-" (digits 2 d "")))).

Example fromisoformat_date :
  fromisoformat "2026-11-03" = Some (739922 * usec_per_day).
Proof. reflexivity. Qed.

Example fromisoformat_datetime :
  fromisoformat "2026-11-03T09:15:02.331870"
  = Some (739922 * usec_per_day + 33302331870).
Proof. reflexivity. Qed.

Example fromisoformat_malformed : fromisoformat "03.11.2026" = None.
Proof. reflexivity. Qed.

Example fromisoformat_no_such_day : fromisoformat "2026-02-29" = None.
Proof. reflexivity. Qed.

Example strftime_ymd_today : strftime_ymd 739922 = "2026-11-03".
Proof. reflexivity. Qed.

Example strftime_ymd_leap_day :
  option_map (fun t => strftime_ymd (t / usec_per_day))
    (fromisoformat "2024-02-29T23:59:59")
  = Some "2024-02-29".
Proof. reflexivity. Qed.

Example strftime_ymd_new_year :
  option_map (fun t => strftime_ymd (t / usec_per_day + 1))
    (fromisoformat "2025-12-31T23:59:59")
  = Some "2026-01-01".
Proof. reflexivity. Qed.

End Iso.

(* ================================================================== *)
(** * The reporting engine: reports-module/Код 3.py *)
(* ================================================================== *)

Module Reports.
Import Py TaskFile.

(** A naive [datetime]: microseconds since 0001-01-01T00:00:00. *)
Definition datetime : Type := Z.

Definition usec_per_day : Z := 86400000000.

(** [timedelta(days=n)] *)
Definition timedelta (n : Z) : Z := n * usec_per_day.

(** [d.date()], as the number of the calendar day. *)
Definition date (d : datetime) : Z := d / usec_per_day.

(** What a report runs in: how many times the clock was read, and the
    lines printed so far. *)
Record Env : Type := mkEnv {
  ticks : nat;
  stdout : list string
}.

Definition M (A : Type) : Type := Env -> result A * Env.

Definition ret {A : Type} (a : A) : M A := fun e => (Ok a, e).

Definition raise {A : Type} (x : exn) : M A := fun e => (Raise x, e).

Definition bind {A B : Type} (m : M A) (k : A -> M B) : M B :=
  fun e =>
    match m e with
    | (Ok a, e') => k a e'
    | (Raise x, e') => (Raise x, e')
    end.

Notation "x <- m ;; k" := (bind m (fun x => k))
  (at level 61, m at next level, right associativity).
Notation "m ;;; k" := (bind m (fun _ => k))
  (at level 61, right associativity).

(** [print(line)] *)
Definition print (line : string) : M unit :=
  fun e => (Ok tt, mkEnv (ticks e) (stdout e ++ [line])).

(** [try: body / except ValueError: handler] *)
Definition try_except_ValueError {A : Type} (body handler : M A) : M A :=
  fun e =>
    match body e with
    | (Raise (ValueError _), e') => handler e'
    | r => r
    end.

Fixpoint mapM {A B : Type} (f : A -> M B) (l : list A) : M (list B) :=
  match l with
  | [] => ret []
  | a :: r => b <- f a ;; bs <- mapM f r ;; ret (b :: bs)
  end.

(** [acc = init; for a in l: acc = step(acc, a)] *)
Fixpoint foldM {A S : Type} (step : S -> A -> M S) (acc : S) (l : list A) : M S :=
  match l with
  | [] => ret acc
  | a :: r => acc' <- step acc a ;; foldM step acc' r
  end.

(** [[a for a in l if test(a)]] *)
Fixpoint filterM {A : Type} (test : A -> M bool) (l : list A) : M (list A) :=
  match l with
  | [] => ret []
  | a :: r =>
      b <- test a ;;
      keep <- filterM test r ;;
      ret (if b then a :: keep else keep)
  end.

(** ** Counting dictionaries

    A [defaultdict(int)] keeps its keys in the order they were first
    counted. *)

(** [d[k] += 1] *)
Fixpoint bump (k : string) (d : list (string * Z)) : list (string * Z) :=
  match d with
  | [] => [(k, 1)]
  | (k', n) :: r =>
      if (k' =? k)%string then (k', n + 1) :: r else (k', n) :: bump k r
  end.

(** [d = defaultdict(int); for k in keys: d[k] += 1] *)
Definition count_keys (keys : list string) : list (string * Z) :=
  fold_left (fun d k => bump k d) keys [].

(** [d.get(k, default)] *)
Fixpoint dict_get (k : string) (default : Z) (d : list (string * Z)) : Z :=
  match d with
  | [] => default
  | (k', n) :: r => if (k' =? k)%string then n else dict_get k default r
  end.

(** [max(d.items(), key=lambda x: x[1])]: the first item whose count no
    other exceeds ([d] not empty). *)
Definition max_item (first : string * Z) (rest : list (string * Z)) : string * Z :=
  fold_left (fun best x => if snd best <? snd x then x else best) rest first.

(** [task.get('created_at', '2000-01-01')] *)
Definition created_at_of (task : TaskDict) : string :=
  match d_created_at task with
  | Some s => s
  | None => "2000-01-01"
  end.

(** [task.get('status', 'неизвестно')] *)
Definition status_of (task : TaskDict) : string :=
  match d_status task with
  | Some s => s
  | None => "неизвестно"
  end.

(** Truth value of an optional [int] argument. *)
Definition truthy_int (o : option Z) : bool :=
  match o with
  | Some n => negb (n =? 0)
  | None => false
  end.

(** The value of an argument that was given. *)
Definition int_arg (o : option Z) : Z :=
  match o with
  | Some n => n
  | None => 0
  end.

Definition str_arg (o : option string) : string :=
  match o with
  | Some s => s
  | None => ""
  end.

(** The dictionary a report returns: the error marker, or the fields. *)
Inductive report (A : Type) : Type :=
| NoData (error : string)
| Report (fields : A).

Arguments NoData {A} error.
Arguments Report {A} fields.

Record Summary : Type := mkSummary {
  period : string;
  total_tasks : Z;
  status_distribution : list (string * Z);
  completion_rate : num;
  most_active_day : string * Z;
  average_tasks_per_day : num
}.

(** [most_active_day["tasks_created"]] *)
Definition tasks_created (r : Summary) : Z := snd (most_active_day r).

Record Day : Type := mkDay {
  day_date : string;
  day_total_tasks : Z;
  day_statuses : list (string * Z)
}.

Record Timeline : Type := mkTimeline {
  period_days : Z;
  timeline : list Day
}.

(** [period_map.get(period)] *)
Definition period_map (p : string) : option Z :=
  if (p =? "today")%string then Some 1
  else if (p =? "week")%string then Some 7
  else if (p =? "month")%string then Some 30
  else None.

(** [range(n)] *)
Definition range (n : Z) : list Z := map Z.of_nat (seq 0 (Z.to_nat n)).

(** [self.tasks], which the constructor loads once from the file, is the
    [tasks] argument of each method below. *)
Section Engine.

(** [datetime.fromisoformat]: [None] when it raises [ValueError]. *)
Variable fromisoformat : string -> option datetime.

(** [strftime('%Y-%m-%d')], which reads the calendar day only. *)
Variable strftime_ymd : Z -> string.

(** The [n]-th reading of [datetime.now()]. *)
Variable clock : nat -> datetime.

(** [datetime.now()] *)
Definition datetime_now : M datetime :=
  fun e => (Ok (clock (ticks e)), mkEnv (S (ticks e)) (stdout e)).

(** [datetime.fromisoformat(s)] *)
Definition parse (s : string) : M datetime :=
  match fromisoformat s with
  | Some d => ret d
  | None => raise (ValueError "Invalid isoformat string")
  end.

(** The body of the loop of [_filter_tasks_by_date]. *)
Definition filter_step (period_days0 : option Z) (start_date end_date : option string)
    (filtered_tasks : list TaskDict) (task : TaskDict) : M (list TaskDict) :=
  task_date <- parse (created_at_of task) ;;
  now <- datetime_now ;;
  if truthy_int period_days0 then
    let cutoff_date := now - timedelta (int_arg period_days0) in
    if task_date >=? cutoff_date then ret (filtered_tasks ++ [task])%list
    else ret filtered_tasks
  else if truthy_opt start_date && truthy_opt end_date then
    try_except_ValueError
      (start <- parse (str_arg start_date) ;;
       end_ <- parse (str_arg end_date) ;;
       if (start <=? task_date) && (task_date <=? end_)
       then ret (filtered_tasks ++ [task])%list
       else ret filtered_tasks)
      (print "Ошибка формата даты. Используйте YYYY-MM-DD" ;;;
       ret filtered_tasks)
  else ret filtered_tasks.

(** [TaskReporting._filter_tasks_by_date] *)
Definition _filter_tasks_by_date (tasks : list TaskDict) (period_days0 : option Z)
    (start_date end_date : option string) : M (list TaskDict) :=
  foldM (filter_step period_days0 start_date end_date) [] tasks.

(** [status_count] of the reports: the statuses of [tasks], counted. *)
Definition count_statuses (tasks : list TaskDict) : list (string * Z) :=
  count_keys (map status_of tasks).

(** [datetime.fromisoformat(task.get('created_at', '2000-01-01'))] *)
Definition task_date (task : TaskDict) : M datetime :=
  parse (created_at_of task).

(** The tasks a summary is about, lines 93 to 96 of
    [generate_summary_report]. *)
Definition tasks_of_period (tasks : list TaskDict) (period0 : string)
    : M (list TaskDict) :=
  match period_map period0 with
  | Some n => _filter_tasks_by_date tasks (Some n) None None
  | None => ret tasks
  end.

(** [TaskReporting.generate_summary_report] *)
Definition generate_summary_report (tasks : list TaskDict) (period0 : string)
    : M (report Summary) :=
  match tasks with
  | [] => ret (NoData "Нет данных для отчета")
  | _ :: _ =>
      filtered_tasks <- tasks_of_period tasks period0 ;;
      let total := len filtered_tasks in
      let status_count := count_statuses filtered_tasks in
      let completed := dict_get "завершенная" 0 status_count in
      let rate :=
        if total >? 0 then Float (PrimFloat.mul (truediv completed total) (Z2float 100))
        else Int 0 in
      task_dates <- mapM task_date filtered_tasks ;;
      let tasks_by_day := count_keys (map (fun d => strftime_ymd (date d)) task_dates) in
      let most_active :=
        match tasks_by_day with
        | first :: rest => max_item first rest
        | [] => ("Нет данных", 0)
        end in
      ret (Report
             {| period := period0;
                total_tasks := total;
                status_distribution := status_count;
                completion_rate := round2 rate;
                most_active_day := most_active;
                average_tasks_per_day :=
                  match tasks_by_day with
                  | _ :: _ => round2 (Float (truediv total (len tasks_by_day)))
                  | [] => Int 0
                  end |})
  end.

(** One entry of the timeline: the tasks created on the day of
    [current_date]. *)
Definition timeline_entry (tasks : list TaskDict) (current_date : datetime) : M Day :=
  let date_str := strftime_ymd (date current_date) in
  daily_tasks <-
    filterM (fun task => d <- task_date task ;; ret (date d =? date current_date))
      tasks ;;
  ret {| day_date := date_str;
         day_total_tasks := len daily_tasks;
         day_statuses := count_statuses daily_tasks |}.

(** [TaskReporting.generate_timeline_report] *)
Definition generate_timeline_report (tasks : list TaskDict) (days : Z)
    : M (report Timeline) :=
  match tasks with
  | [] => ret (NoData "Нет данных для отчета")
  | _ :: _ =>
      end_date <- datetime_now ;;
      let start_date := end_date - timedelta days in
      timeline_data <-
        mapM (fun i => timeline_entry tasks (start_date + timedelta i))
          (range (days + 1)) ;;
      ret (Report {| period_days := days; timeline := timeline_data |})
  end.

(** ** Tasks whose creation time can be read *)

(** [created_at] (or the default that stands in for it) is an ISO
    timestamp. *)
Definition well_dated (task : TaskDict) : Prop :=
  fromisoformat (created_at_of task) <> None.

(** The creation time of a well dated task. *)
Definition created (task : TaskDict) : datetime :=
  match fromisoformat (created_at_of task) with
  | Some d => d
  | None => 0
  end.

(** The tasks created no earlier than [n] days before the reading of the
    clock taken for them, the first task meeting reading [k]. *)
Fixpoint recent (n : Z) (k : nat) (tasks : list TaskDict) : list TaskDict :=
  match tasks with
  | [] => []
  | task :: r =>
      if created task >=? clock k - timedelta n then task :: recent n (S k) r
      else recent n (S k) r
  end.

(** The tasks in scope of [summary(period)] when the clock was read [k]
    times before. *)
Definition scope (period0 : string) (k : nat) (tasks : list TaskDict)
    : list TaskDict :=
  match period_map period0 with
  | Some n => recent n k tasks
  | None => tasks
  end.

(** How many tasks carry exactly the "completed" label. *)
Definition completed_count (tasks : list TaskDict) : Z :=
  len (filter (fun task => (status_of task =? "завершенная")%string) tasks).

(** The completion rate of the specification: completed over total, times
    100, rounded to two decimals; 0 when there is no task. *)
Definition spec_completion_rate (completed total : Z) : num :=
  if total =? 0 then Int 0
  else Float (round2_float (PrimFloat.mul (truediv completed total) (Z2float 100))).

(** The tasks created on the calendar day [day]. *)
Definition created_on (day : Z) (tasks : list TaskDict) : list TaskDict :=
  filter (fun task => date (created task) =? day) tasks.


(** ** The monadic loops, when nothing raises *)

Lemma well_dated_created (task : TaskDict) :
  well_dated task -> fromisoformat (created_at_of task) = Some (created task).
Proof.
  unfold well_dated, created.
  destruct (fromisoformat (created_at_of task)); [reflexivity | contradiction].
Qed.

Lemma task_date_ok (task : TaskDict) (e : Env) :
  well_dated task -> task_date task e = (Ok (created task), e).
Proof.
  intro H. unfold task_date, parse. rewrite (well_dated_created task H).
  reflexivity.
Qed.

Lemma mapM_pure {A B : Type} (f : A -> M B) (g : A -> B) (l : list A) (e : Env) :
  (forall a, In a l -> f a e = (Ok (g a), e)) -> mapM f l e = (Ok (map g l), e).
Proof.
  induction l as [|a l IH]; intro H; simpl; [reflexivity|].
  unfold bind at 1. rewrite (H a (or_introl eq_refl)).
  unfold bind at 1. rewrite IH; [reflexivity|].
  intros b Hb. apply H. right. exact Hb.
Qed.


(** One pass of the loop without a period and without both bounds: the
    entry is dropped. *)
Lemma filter_step_no_criteria (p : option Z) (sd ed : option string)
    (acc : list TaskDict) (task : TaskDict) (e : Env) :
  truthy_int p = false ->
  truthy_opt sd && truthy_opt ed = false ->
  well_dated task ->
  filter_step p sd ed acc task e = (Ok acc, mkEnv (S (ticks e)) (stdout e)).
Proof.
  intros Hp Hb Hw. unfold filter_step, bind, parse, datetime_now.
  rewrite (well_dated_created task Hw), Hp, Hb. reflexivity.
Qed.

(** One pass of the loop with a period. *)
Lemma filter_step_period (n : Z) (sd ed : option string)
    (acc : list TaskDict) (task : TaskDict) (e : Env) :
  n <> 0 ->
  well_dated task ->
  filter_step (Some n) sd ed acc task e
  = (Ok (if created task >=? clock (ticks e) - timedelta n
         then (acc ++ [task])%list else acc),
     mkEnv (S (ticks e)) (stdout e)).
Proof.
  intros Hn Hw. unfold filter_step, bind, parse, datetime_now.
  rewrite (well_dated_created task Hw). cbn [truthy_int int_arg].
  apply Z.eqb_neq in Hn. rewrite Hn. cbn [negb ret].
  destruct (created task >=? clock (ticks e) - timedelta n); reflexivity.
Qed.


Lemma foldM_no_criteria (p : option Z) (sd ed : option string)
    (tasks acc : list TaskDict) (e : Env) :
  truthy_int p = false ->
  truthy_opt sd && truthy_opt ed = false ->
  Forall well_dated tasks ->
  foldM (filter_step p sd ed) acc tasks e
  = (Ok acc, mkEnv (ticks e + List.length tasks) (stdout e)).
Proof.
  intros Hp Hb H. revert e. induction H as [|t ts Ht Hts IH]; intro e; simpl.
  - rewrite Nat.add_0_r. destruct e; reflexivity.
  - unfold bind. rewrite (filter_step_no_criteria p sd ed acc t e Hp Hb Ht).
    rewrite IH. cbn [ticks stdout]. rewrite Nat.add_succ_r. reflexivity.
Qed.

Lemma foldM_period (n : Z) (tasks acc : list TaskDict) (e : Env) :
  n <> 0 ->
  Forall well_dated tasks ->
  foldM (filter_step (Some n) None None) acc tasks e
  = (Ok (acc ++ recent n (ticks e) tasks)%list,
     mkEnv (ticks e + List.length tasks) (stdout e)).
Proof.
  intros Hn H. revert acc e.
  induction H as [|t ts Ht Hts IH]; intros acc e; simpl.
  - rewrite Nat.add_0_r, app_nil_r. destruct e; reflexivity.
  - unfold bind. rewrite (filter_step_period n None None acc t e Hn Ht).
    rewrite IH. cbn [ticks stdout]. rewrite Nat.add_succ_r.
    destruct (created t >=? clock (ticks e) - timedelta n);
      [rewrite <- app_assoc|]; reflexivity.
Qed.


Lemma recent_subset (n : Z) (k : nat) (tasks : list TaskDict) (task : TaskDict) :
  In task (recent n k tasks) -> In task tasks.
Proof.
  revert k. induction tasks as [|t ts IH]; intros k; simpl; [trivial|].
  destruct (created t >=? clock k - timedelta n); simpl; intros H.
  - destruct H as [H|H]; [left; exact H | right; apply (IH _ H)].
  - right. apply (IH _ H).
Qed.

Lemma scope_subset (p : string) (k : nat) (tasks : list TaskDict) (task : TaskDict) :
  In task (scope p k tasks) -> In task tasks.
Proof.
  unfold scope. destruct (period_map p); [apply recent_subset | trivial].
Qed.

Lemma period_map_nonzero (p : string) (n : Z) : period_map p = Some n -> n <> 0.
Proof.
  unfold period_map.
  destruct (p =? "today")%string; [intro H; injection H as <-; discriminate|].
  destruct (p =? "week")%string; [intro H; injection H as <-; discriminate|].
  destruct (p =? "month")%string; [intro H; injection H as <-; discriminate|].
  discriminate.
Qed.

(** The first step of a summary selects the tasks in scope. *)
Lemma tasks_of_period_scope (tasks : list TaskDict) (p : string) (e : Env) :
  Forall well_dated tasks ->
  exists e',
    tasks_of_period tasks p e = (Ok (scope p (ticks e) tasks), e')
    /\ stdout e' = stdout e.
Proof.
  intro H. unfold tasks_of_period, scope, _filter_tasks_by_date.
  destruct (period_map p) as [n|] eqn:E.
  - rewrite (foldM_period n tasks [] e (period_map_nonzero p n E) H).
    eexists. split; reflexivity.
  - exists e. split; reflexivity.
Qed.

(** ** Counting *)

Lemma len_cons {A : Type} (a : A) (l : list A) : len (a :: l) = len l + 1.
Proof.
  unfold len. cbn [List.length]. lia.
Qed.

Lemma len_nonneg {A : Type} (l : list A) : 0 <= len l.
Proof.
  unfold len. lia.
Qed.

Lemma dict_get_bump (k k' : string) (d : list (string * Z)) :
  dict_get k 0 (bump k' d)
  = dict_get k 0 d + (if (k' =? k)%string then 1 else 0).
Proof.
  induction d as [|[a n] r IH]; cbn [bump dict_get].
  - destruct (k' =? k)%string; reflexivity.
  - destruct (String.eqb_spec a k') as [Eak'|Nak']; cbn [dict_get].
    + subst a. destruct (k' =? k)%string; lia.
    + destruct (String.eqb_spec a k) as [Eak|Nak].
      * subst a. apply String.eqb_neq in Nak'.
        rewrite String.eqb_sym in Nak'. rewrite Nak'. lia.
      * exact IH.
Qed.

Lemma dict_get_fold_bump (k : string) (keys : list string) (d : list (string * Z)) :
  dict_get k 0 (fold_left (fun d x => bump x d) keys d)
  = dict_get k 0 d + len (filter (fun x => (x =? k)%string) keys).
Proof.
  revert d. induction keys as [|x keys IH]; intro d; cbn [fold_left filter].
  - unfold len. simpl. lia.
  - rewrite IH, dict_get_bump.
    destruct (x =? k)%string; [rewrite len_cons|]; lia.
Qed.

Lemma filter_map_len {A B : Type} (f : A -> B) (p : B -> bool) (l : list A) :
  len (filter p (map f l)) = len (filter (fun a => p (f a)) l).
Proof.
  induction l as [|a l IH]; cbn [map filter]; [reflexivity|].
  destruct (p (f a)); [rewrite !len_cons, IH|]; auto.
Qed.

(** The count kept under the "completed" label is the number of tasks that
    carry it. *)
Lemma completed_counted (tasks : list TaskDict) :
  dict_get "завершенная" 0 (count_statuses tasks) = completed_count tasks.
Proof.
  unfold count_statuses, count_keys, completed_count.
  rewrite dict_get_fold_bump, filter_map_len. reflexivity.
Qed.

Lemma fold_bump_same (k : string) (keys : list string) (n : Z) :
  (forall x, In x keys -> x = k) ->
  fold_left (fun d x => bump x d) keys [(k, n)] = [(k, n + len keys)].
Proof.
  revert n. induction keys as [|x keys IH]; intros n H; cbn [fold_left].
  - unfold len. simpl. rewrite Z.add_0_r. reflexivity.
  - rewrite (H x (or_introl eq_refl)). cbn [bump]. rewrite String.eqb_refl.
    rewrite IH; [|intros y Hy; apply H; right; exact Hy].
    rewrite len_cons. f_equal. f_equal. lia.
Qed.

(** Keys that are all the same are counted under one entry. *)
Lemma count_keys_same (k : string) (keys : list string) :
  keys <> [] ->
  (forall x, In x keys -> x = k) ->
  count_keys keys = [(k, len keys)].
Proof.
  destruct keys as [|x keys]; [contradiction|]. intros _ H.
  unfold count_keys. cbn [fold_left bump].
  rewrite (H x (or_introl eq_refl)).
  rewrite fold_bump_same; [|intros y Hy; apply H; right; exact Hy].
  rewrite len_cons. f_equal. f_equal. lia.
Qed.

(** ** Calendar days *)




(** ** The reports in closed form *)

(** The summary as a function of the tasks in scope. *)
Definition summary_of (period0 : string) (tasks : list TaskDict) : Summary :=
  let tasks_by_day :=
    count_keys (map (fun d => strftime_ymd (date d)) (map created tasks)) in
  {| period := period0;
     total_tasks := len tasks;
     status_distribution := count_statuses tasks;
     completion_rate :=
       round2
         (if len tasks >? 0
          then Float (PrimFloat.mul
                        (truediv (dict_get "завершенная" 0 (count_statuses tasks))
                           (len tasks))
                        (Z2float 100))
          else Int 0);
     most_active_day :=
       match tasks_by_day with
       | first :: rest => max_item first rest
       | [] => ("Нет данных", 0)
       end;
     average_tasks_per_day :=
       match tasks_by_day with
       | _ :: _ => round2 (Float (truediv (len tasks) (len tasks_by_day)))
       | [] => Int 0
       end |}.


Lemma summary_closed_form (tasks : list TaskDict) (p : string) (e : Env) :
  tasks <> [] ->
  Forall well_dated tasks ->
  exists e',
    generate_summary_report tasks p e
    = (Ok (Report (summary_of p (scope p (ticks e) tasks))), e')
    /\ stdout e' = stdout e.
Proof.
  intros Hne Hw. destruct tasks as [|t ts]; [contradiction|].
  destruct (tasks_of_period_scope (t :: ts) p e Hw) as (e' & Hsc & Hout).
  exists e'. split; [|exact Hout].
  unfold generate_summary_report, bind at 1. rewrite Hsc.
  unfold bind at 1.
  rewrite (mapM_pure task_date created (scope p (ticks e) (t :: ts)) e').
  - reflexivity.
  - intros a Ha. apply task_date_ok.
    rewrite Forall_forall in Hw. apply Hw. apply (scope_subset _ _ _ _ Ha).
Qed.



Lemma recent_none (n : Z) (k : nat) (tasks : list TaskDict) :
  (forall task, In task tasks ->
     forall j, (k <= j)%nat -> created task < clock j - timedelta n) ->
  recent n k tasks = [].
Proof.
  revert k. induction tasks as [|t ts IH]; intros k H; cbn [recent]; [reflexivity|].
  pose proof (H t (or_introl eq_refl) k (Nat.le_refl k)) as Ht.
  destruct (Z.geb_spec (created t) (clock k - timedelta n)) as [Hge|_]; [lia|].
  apply IH. intros u Hu j Hj. apply (H u (or_intror Hu)). lia.
Qed.

(* ------------------------------------------------------------------ *)
(** ** Properties of the reports *)
(* ------------------------------------------------------------------ *)



(** C5.  For every snapshot a summary reports on (not empty, every
    [created_at] a timestamp) and every period, the completion rate is the
    number of tasks in scope with exactly the "completed" label over the
    number of tasks in scope, times 100, rounded to two decimals, and 0 when
    no task is in scope.  In particular [summary("all")] over three tasks
    created the same calendar day, two of them "completed", has
    [total_tasks = 3], [completion_rate = 66.67] and
    [most_active_day.tasks_created = 3]. *)
Theorem summary_completion_rate (tasks : list TaskDict) (p : string) (e : Env) :
  tasks <> [] ->
  Forall well_dated tasks ->
  exists r e',
    generate_summary_report tasks p e = (Ok (Report r), e')
    /\ total_tasks r = len (scope p (ticks e) tasks)
    /\ completion_rate r
       = spec_completion_rate (completed_count (scope p (ticks e) tasks))
           (len (scope p (ticks e) tasks))
    /\ (p = "all" ->
        List.length tasks = 3%nat ->
        completed_count tasks = 2 ->
        (exists day, forall task, In task tasks -> date (created task) = day) ->
        total_tasks r = 3
        /\ completion_rate r = Float 66.67
        /\ tasks_created r = 3).
Proof.
  intros Hne Hw.
  destruct (summary_closed_form tasks p e Hne Hw) as (e' & Hrep & _).
  eexists _, e'. split; [exact Hrep|].
  cbn [total_tasks completion_rate summary_of].
  assert (Hrate : forall sc,
             round2
               (if len sc >? 0
                then Float (PrimFloat.mul
                              (truediv (dict_get "завершенная" 0 (count_statuses sc))
                                 (len sc))
                              (Z2float 100))
                else Int 0)
             = spec_completion_rate (completed_count sc) (len sc)).
  { intro sc. unfold spec_completion_rate. rewrite completed_counted.
    pose proof (len_nonneg sc) as Hpos.
    destruct (Z.eqb_spec (len sc) 0) as [E|E].
    - rewrite E. reflexivity.
    - destruct (Z.gtb_spec (len sc) 0) as [_|Hle]; [reflexivity | lia]. }
  split; [reflexivity|]. split; [apply Hrate|].
  intros -> Hlen Hdone [day Hday].
  change (scope "all" (ticks e) tasks) with tasks.
  assert (Hl : len tasks = 3) by (unfold len; rewrite Hlen; reflexivity).
  split; [exact Hl|]. split.
  - rewrite Hrate, Hdone, Hl. vm_compute. reflexivity.
  - unfold tasks_created, summary_of. cbn [most_active_day].
    rewrite (count_keys_same (strftime_ymd day)).
    + unfold max_item. cbn [fold_left snd]. unfold len.
      rewrite !length_map, Hlen. reflexivity.
    + destruct tasks; [contradiction | discriminate].
    + intros x Hx. apply in_map_iff in Hx. destruct Hx as (d & <- & Hd).
      apply in_map_iff in Hd. destruct Hd as (t & <- & Ht).
      rewrite (Hday t Ht). reflexivity.
Qed.

(** C10.  For a snapshot that is not empty and a period among [today],
    [week] and [month] in which no task was created (every task was created
    before the start of the period, whenever the clock is read during the
    call), [summary(period)] does not return the "no data" marker: it
    returns a report with no task, an empty status distribution, a
    completion rate of 0, the placeholder day with count 0 and an average
    of 0.  The marker is returned for an empty snapshot only. *)
Theorem summary_of_quiet_period (tasks : list TaskDict) (p : string) (e : Env) :
  tasks <> [] ->
  In p ["today"; "week"; "month"] ->
  (forall task, In task tasks ->
     well_dated task
     /\ forall k, (ticks e <= k)%nat ->
          created task < clock k - timedelta (int_arg (period_map p))) ->
  exists e',
    generate_summary_report tasks p e
    = (Ok (Report
             {| period := p;
                total_tasks := 0;
                status_distribution := [];
                completion_rate := Int 0;
                most_active_day := ("Нет данных", 0);
                average_tasks_per_day := Int 0 |}),
       e')
    /\ stdout e' = stdout e.
Proof.
  intros Hne Hp Hquiet.
  assert (Hw : Forall well_dated tasks).
  { apply Forall_forall. intros t Ht. apply (Hquiet t Ht). }
  destruct (summary_closed_form tasks p e Hne Hw) as (e' & Hrep & Hout).
  exists e'. split; [|exact Hout]. rewrite Hrep.
  assert (Hsc : scope p (ticks e) tasks = []).
  { unfold scope. destruct (period_map p) as [n|] eqn:E.
    - apply recent_none. intros t Ht j Hj.
      apply (proj2 (Hquiet t Ht) j Hj).
    - exfalso. destruct Hp as [<-|[<-|[<-|[]]]]; discriminate E. }
  rewrite Hsc. reflexivity.
Qed.

(* ------------------------------------------------------------------ *)
(** ** Further properties of the date filter *)
(* ------------------------------------------------------------------ *)




Lemma filter_step_range (p : option Z) (sd ed : string) (s0 e0 : datetime)
    (acc : list TaskDict) (task : TaskDict) (e : Env) :
  truthy_int p = false ->
  sd <> "" -> ed <> "" ->
  fromisoformat sd = Some s0 ->
  fromisoformat ed = Some e0 ->
  well_dated task ->
  filter_step p (Some sd) (Some ed) acc task e
  = (Ok (if (s0 <=? created task) && (created task <=? e0)
         then (acc ++ [task])%list else acc),
     mkEnv (S (ticks e)) (stdout e)).
Proof.
  intros Hp Hs He Hs0 He0 Hw.
  unfold filter_step, bind at 1 2, parse at 1, datetime_now.
  rewrite (well_dated_created task Hw), Hp. cbn [truthy_opt str_arg ret].
  apply truthy_true_iff in Hs, He. rewrite Hs, He. cbn [andb].
  unfold try_except_ValueError, bind, parse, ret. rewrite Hs0, He0.
  destruct ((s0 <=? created task) && (created task <=? e0)); reflexivity.
Qed.

(** X18.  With no period and two well-formed bounds, the date filter
    returns the tasks created at or after the start and at or before the
    end, both bounds included to the microsecond, in the order of the
    collection, and prints nothing. *)
Theorem range_filter_is_inclusive (tasks : list TaskDict) (p : option Z)
    (start_date end_date : string) (s0 e0 : datetime) (e : Env) :
  truthy_int p = false ->
  start_date <> "" ->
  end_date <> "" ->
  fromisoformat start_date = Some s0 ->
  fromisoformat end_date = Some e0 ->
  Forall well_dated tasks ->
  exists l,
    _filter_tasks_by_date tasks p (Some start_date) (Some end_date) e
    = (Ok l, mkEnv (ticks e + List.length tasks) (stdout e))
    /\ l = filter (fun t => (s0 <=? created t) && (created t <=? e0)) tasks
    /\ forall task, In task l <-> In task tasks /\ s0 <= created task <= e0.
Proof.
  intros Hp Hs He Hs0 He0 Hw. eexists. split; [|split; [reflexivity|]].
  - unfold _filter_tasks_by_date.
    assert (G : forall acc e1,
               foldM (filter_step p (Some start_date) (Some end_date)) acc tasks e1
               = (Ok (acc
                      ++ filter (fun t => (s0 <=? created t) && (created t <=? e0))
                           tasks)%list,
                  mkEnv (ticks e1 + List.length tasks) (stdout e1))).
    { induction Hw as [|t ts Ht Hts IH]; intros acc e1; simpl.
      - rewrite Nat.add_0_r, app_nil_r. destruct e1; reflexivity.
      - unfold bind.
        rewrite (filter_step_range p _ _ s0 e0 acc t e1 Hp Hs He Hs0 He0 Ht).
        rewrite IH. cbn [ticks stdout]. rewrite Nat.add_succ_r.
        destruct ((s0 <=? created t) && (created t <=? e0));
          [rewrite <- app_assoc|]; reflexivity. }
    apply (G [] e).
  - intro task. rewrite filter_In, andb_true_iff, !Z.leb_le. reflexivity.
Qed.





(* ------------------------------------------------------------------ *)
(** ** Further properties of the counting dictionaries *)
(* ------------------------------------------------------------------ *)

(** [sum(d.values())] *)
Definition dict_total (d : list (string * Z)) : Z :=
  fold_right (fun kv acc => snd kv + acc) 0 d.

Lemma bump_total (k : string) (d : list (string * Z)) :
  dict_total (bump k d) = dict_total d + 1.
Proof.
  induction d as [|[a n] r IH]; cbn [bump dict_total fold_right snd].
  - lia.
  - destruct (a =? k)%string; cbn [dict_total fold_right snd].
    + fold (dict_total r). lia.
    + fold (dict_total (bump k r)). fold (dict_total r). rewrite IH. lia.
Qed.

Lemma bump_keys (k k' : string) (d : list (string * Z)) :
  In k' (map fst (bump k d)) <-> k' = k \/ In k' (map fst d).
Proof.
  induction d as [|[a n] r IH]; cbn [bump map fst In].
  - split; [intros [H|[]]; left; symmetry; exact H
           | intros [H|[]]; left; symmetry; exact H].
  - destruct (String.eqb_spec a k) as [E|N]; cbn [map fst In].
    + subst a. split; [intro H; right; exact H|].
      intros [H|H]; [left; symmetry; exact H | exact H].
    + rewrite IH. split.
      * intros [H|[H|H]]; [right; left; exact H | left; exact H
                          | right; right; exact H].
      * intros [H|[H|H]]; [right; left; exact H | left; exact H
                          | right; right; exact H].
Qed.

Lemma bump_NoDup (k : string) (d : list (string * Z)) :
  NoDup (map fst d) -> NoDup (map fst (bump k d)).
Proof.
  induction d as [|[a n] r IH]; cbn [bump map fst]; intro H.
  - constructor; [intros [] | constructor].
  - inversion H as [|? ? Hnot Hr]; subst.
    destruct (String.eqb_spec a k) as [E|N]; cbn [map fst].
    + constructor; assumption.
    + constructor; [|apply IH; exact Hr].
      rewrite bump_keys. intros [Ha|Ha]; [contradiction | contradiction].
Qed.

Lemma bump_positive (k : string) (d : list (string * Z)) :
  Forall (fun kv => 1 <= snd kv) d -> Forall (fun kv => 1 <= snd kv) (bump k d).
Proof.
  induction d as [|[a n] r IH]; cbn [bump]; intro H.
  - constructor; [cbn; lia | constructor].
  - inversion H as [|? ? Hn Hr]; subst. cbn [snd] in Hn.
    destruct (a =? k)%string; constructor; cbn [snd]; auto; lia.
Qed.

(** What [count_keys] builds: distinct keys, all among the keys counted,
    counts of at least 1 that add up to the number of keys. *)
Lemma count_keys_shape (keys : list string) :
  NoDup (map fst (count_keys keys))
  /\ Forall (fun kv => 1 <= snd kv) (count_keys keys)
  /\ dict_total (count_keys keys) = len keys
  /\ (forall k, In k (map fst (count_keys keys)) <-> In k keys).
Proof.
  unfold count_keys.
  assert (G : forall d,
             NoDup (map fst d) ->
             Forall (fun kv => 1 <= snd kv) d ->
             NoDup (map fst (fold_left (fun d x => bump x d) keys d))
             /\ Forall (fun kv => 1 <= snd kv)
                  (fold_left (fun d x => bump x d) keys d)
             /\ dict_total (fold_left (fun d x => bump x d) keys d)
                = dict_total d + len keys
             /\ (forall k,
                   In k (map fst (fold_left (fun d x => bump x d) keys d))
                   <-> In k (map fst d) \/ In k keys)).
  { induction keys as [|x keys IH]; intros d Hn Hp; cbn [fold_left].
    - repeat split; try assumption; [unfold len; simpl; lia | | ].
      + intro H. left. exact H.
      + intros [H|[]]. exact H.
    - destruct (IH (bump x d) (bump_NoDup x d Hn) (bump_positive x d Hp))
        as (H1 & H2 & H3 & H4).
      repeat split; try assumption.
      + rewrite H3, bump_total, len_cons. lia.
      + intro H. apply H4 in H. rewrite bump_keys in H. cbn [In].
        destruct H as [[H|H]|H]; [right; left; symmetry; exact H
                                 | left; exact H | right; right; exact H].
      + intro H. apply H4. rewrite bump_keys. cbn [In] in H.
        destruct H as [H|[H|H]]; [left; right; exact H
                                 | left; left; symmetry; exact H
                                 | right; exact H]. }
  destruct (G [] (NoDup_nil _) (Forall_nil _)) as (H1 & H2 & H3 & H4).
  repeat split; try assumption.
  - intro H. apply H4 in H. destruct H as [[]|H]. exact H.
  - intro H. apply H4. right. exact H.
Qed.

Lemma dict_get_entry (k : string) (n : Z) (d : list (string * Z)) :
  NoDup (map fst d) -> In (k, n) d -> dict_get k 0 d = n.
Proof.
  induction d as [|[a m] r IH]; cbn [map fst dict_get In]; intros Hn H;
    [contradiction|].
  inversion Hn as [|? ? Hnot Hr]; subst.
  destruct H as [H|H].
  - injection H as -> ->. rewrite String.eqb_refl. reflexivity.
  - destruct (String.eqb_spec a k) as [E|N]; [|apply IH; assumption].
    exfalso. apply Hnot. subst a. apply (in_map fst) in H. exact H.
Qed.

Lemma dict_get_found (k : string) (d : list (string * Z)) :
  dict_get k 0 d <> 0 -> In (k, dict_get k 0 d) d.
Proof.
  induction d as [|[a m] r IH]; cbn [dict_get In]; intro H; [contradiction|].
  destruct (String.eqb_spec a k) as [E|N].
  - left. subst a. reflexivity.
  - right. apply IH. exact H.
Qed.

Lemma max_item_spec (first : string * Z) (rest : list (string * Z)) :
  In (max_item first rest) (first :: rest)
  /\ forall x, In x (first :: rest) -> snd x <= snd (max_item first rest).
Proof.
  unfold max_item. revert first.
  induction rest as [|y rest IH]; intro first; cbn [fold_left].
  - split; [left; reflexivity|]. intros x [<-|[]]. lia.
  - destruct (Z.ltb_spec (snd first) (snd y)) as [Hlt|Hge].
    + destruct (IH y) as [Hin Hmax]. split.
      * right. exact Hin.
      * intros x [<-|Hx]; [|apply Hmax; exact Hx].
        pose proof (Hmax y (or_introl eq_refl)). lia.
    + destruct (IH first) as [Hin Hmax]. split.
      * destruct Hin as [Hin|Hin]; [left; exact Hin | right; right; exact Hin].
      * intros x [<-|[<-|Hx]].
        -- apply Hmax. left. reflexivity.
        -- pose proof (Hmax first (or_introl eq_refl)). lia.
        -- apply Hmax. right. exact Hx.
Qed.

Lemma len_filter_le {A : Type} (p q : A -> bool) (l : list A) :
  (forall a, p a = true -> q a = true) ->
  len (filter p l) <= len (filter q l).
Proof.
  intro H. induction l as [|a l IH]; cbn [filter]; [lia|].
  destruct (p a) eqn:Ep.
  - rewrite (H a Ep), !len_cons. lia.
  - destruct (q a); [rewrite len_cons|]; lia.
Qed.

(* ------------------------------------------------------------------ *)
(** ** Further properties of the summary *)
(* ------------------------------------------------------------------ *)

Lemma count_keys_get (k : string) (keys : list string) :
  dict_get k 0 (count_keys keys) = len (filter (fun x => (x =? k)%string) keys).
Proof.
  unfold count_keys. rewrite dict_get_fold_bump. reflexivity.
Qed.

(** X20.  In a summary the status distribution has each status of the
    tasks in scope once, with the number of tasks in scope that carry it
    (a task without a status counting as "неизвестно"); no count is 0, and
    the counts add up to [total_tasks]. *)
Theorem summary_distribution_adds_up (tasks : list TaskDict) (p : string) (e : Env) :
  tasks <> [] ->
  Forall well_dated tasks ->
  exists r e',
    generate_summary_report tasks p e = (Ok (Report r), e')
    /\ NoDup (map fst (status_distribution r))
    /\ dict_total (status_distribution r) = total_tasks r
    /\ forall label n,
         In (label, n) (status_distribution r)
         <-> 1 <= n
             /\ n = len (filter (fun t => (status_of t =? label)%string)
                           (scope p (ticks e) tasks)).
Proof.
  intros Hne Hw.
  destruct (summary_closed_form tasks p e Hne Hw) as (e' & Hrep & _).
  eexists _, e'. split; [exact Hrep|].
  set (sc := scope p (ticks e) tasks).
  cbn [status_distribution total_tasks summary_of]. unfold count_statuses.
  destruct (count_keys_shape (map status_of sc)) as (Hnd & Hpos & Htot & _).
  split; [exact Hnd|]. split.
  { rewrite Htot. unfold len. rewrite length_map. reflexivity. }
  intros label n.
  assert (Hget : dict_get label 0 (count_keys (map status_of sc))
                 = len (filter (fun t => (status_of t =? label)%string) sc)).
  { rewrite count_keys_get, filter_map_len. reflexivity. }
  split.
  - intro Hin. split.
    + rewrite Forall_forall in Hpos. apply (Hpos _ Hin).
    + rewrite <- Hget. symmetry. apply dict_get_entry; assumption.
  - intros [Hn ->]. rewrite <- Hget in *. apply dict_get_found. lia.
Qed.

(** X21.  The most active day of a summary is a true maximum: no calendar
    day has more tasks in scope than [tasks_created].  When some task is in
    scope, the date reported is the day of one of them and
    [tasks_created] is the number of tasks in scope with that date. *)
Theorem most_active_day_has_most_tasks (tasks : list TaskDict) (p : string)
    (e : Env) :
  tasks <> [] ->
  Forall well_dated tasks ->
  exists r e',
    generate_summary_report tasks p e = (Ok (Report r), e')
    /\ (forall day,
          len (created_on day (scope p (ticks e) tasks)) <= tasks_created r)
    /\ (scope p (ticks e) tasks <> [] ->
        exists task,
          In task (scope p (ticks e) tasks)
          /\ fst (most_active_day r) = strftime_ymd (date (created task))
          /\ tasks_created r
             = len (filter
                      (fun u =>
                         (strftime_ymd (date (created u))
                          =? fst (most_active_day r))%string)
                      (scope p (ticks e) tasks))).
Proof.
  intros Hne Hw.
  destruct (summary_closed_form tasks p e Hne Hw) as (e' & Hrep & _).
  eexists _, e'. split; [exact Hrep|].
  set (sc := scope p (ticks e) tasks).
  unfold tasks_created, summary_of. cbn [most_active_day].
  set (keys := map (fun d => strftime_ymd (date d)) (map created sc)).
  destruct (count_keys_shape keys) as (Hnd & Hpos & Htot & Hkeys).
  assert (Hget : forall k,
             dict_get k 0 (count_keys keys)
             = len (filter (fun u => (strftime_ymd (date (created u)) =? k)%string)
                      sc)).
  { intro k. unfold keys. rewrite count_keys_get, !filter_map_len. reflexivity. }
  destruct (count_keys keys) as [|first rest] eqn:Ed.
  - assert (Hsc : sc = []).
    { destruct sc as [|t sc']; [reflexivity|]. exfalso.
      apply (proj2 (Hkeys (strftime_ymd (date (created t))))).
      unfold keys. left. reflexivity. }
    rewrite Hsc. split.
    + intro day. cbn. lia.
    + intro H. contradiction.
  - destruct (max_item_spec first rest) as [Hin Hmax].
    rewrite Forall_forall in Hpos. split.
    + intro day. unfold created_on.
      apply Z.le_trans
        with (len (filter
                     (fun u => (strftime_ymd (date (created u))
                                =? strftime_ymd day)%string) sc)).
      * apply len_filter_le. intros a Ha. apply Z.eqb_eq in Ha. rewrite Ha.
        apply String.eqb_refl.
      * rewrite <- Hget.
        destruct (Z.eq_dec (dict_get (strftime_ymd day) 0 (first :: rest)) 0)
          as [E0|N0].
        -- rewrite E0. pose proof (Hpos _ Hin). lia.
        -- apply (Hmax _ (dict_get_found _ _ N0)).
    + intros _.
      assert (Hk : In (fst (max_item first rest)) keys).
      { apply Hkeys. apply in_map. exact Hin. }
      unfold keys in Hk. apply in_map_iff in Hk. destruct Hk as (d & Hd & Hk).
      apply in_map_iff in Hk. destruct Hk as (t & <- & Ht).
      exists t. split; [exact Ht|]. split; [symmetry; exact Hd|].
      rewrite <- Hget. symmetry. apply dict_get_entry; [exact Hnd|].
      destruct (max_item first rest); exact Hin.
Qed.

Lemma period_map_unknown (p : string) :
  ~ In p ["today"; "week"; "month"] -> period_map p = None.
Proof.
  intro H. unfold period_map.
  destruct (String.eqb_spec p "today") as [E|_];
    [exfalso; apply H; left; symmetry; exact E|].
  destruct (String.eqb_spec p "week") as [E|_];
    [exfalso; apply H; right; left; symmetry; exact E|].
  destruct (String.eqb_spec p "month") as [E|_];
    [exfalso; apply H; right; right; left; symmetry; exact E|].
  reflexivity.
Qed.

(** X22.  Any period other than "today", "week" and "month" (not "all"
    alone: a misspelt period too) means no date filter: the summary is
    about the whole snapshot, echoes the period it was given, and neither
    reads the clock nor prints. *)
Theorem unknown_period_means_no_filter (tasks : list TaskDict) (p : string)
    (e : Env) :
  tasks <> [] ->
  Forall well_dated tasks ->
  ~ In p ["today"; "week"; "month"] ->
  exists r,
    generate_summary_report tasks p e = (Ok (Report r), e)
    /\ period r = p
    /\ total_tasks r = len tasks
    /\ status_distribution r = count_statuses tasks.
Proof.
  intros Hne Hw Hp. destruct tasks as [|t ts]; [contradiction|].
  exists (summary_of p (t :: ts)). split; [|repeat split].
  unfold generate_summary_report, tasks_of_period.
  rewrite (period_map_unknown p Hp). unfold bind at 1, ret at 1.
  unfold bind at 1.
  rewrite (mapM_pure task_date created (t :: ts) e); [reflexivity|].
  intros a Ha. apply task_date_ok. rewrite Forall_forall in Hw. apply Hw, Ha.
Qed.

(* ------------------------------------------------------------------ *)
(** ** Further properties of the timeline *)
(* ------------------------------------------------------------------ *)




(** [sum(day["total_tasks"] for day in timeline)] *)
Definition timeline_total (l : list Day) : Z :=
  fold_right (fun d acc => day_total_tasks d + acc) 0 l.





(* ------------------------------------------------------------------ *)
(** ** The report by status *)
(* ------------------------------------------------------------------ *)

(** One value of the dictionary [generate_status_report] returns. *)
Record StatusEntry : Type := mkStatusEntry {
  count : Z;
  percentage : num;
  first_tasks : list (option Z * option string)
}.

(** [status_groups[k].append(task)] on a [defaultdict(list)], which keeps
    its keys in the order they were first used. *)
Fixpoint group_add (k : string) (task : TaskDict)
    (d : list (string * list TaskDict)) : list (string * list TaskDict) :=
  match d with
  | [] => [(k, [task])]
  | (k', l) :: r =>
      if (k' =? k)%string then (k', (l ++ [task])%list) :: r
      else (k', l) :: group_add k task r
  end.

(** [status_groups] after the first loop of [generate_status_report]. *)
Definition group_by_status (tasks : list TaskDict)
    : list (string * list TaskDict) :=
  fold_left (fun d task => group_add (status_of task) task d) tasks [].

(** [TaskReporting.generate_status_report] *)
Definition generate_status_report (tasks : list TaskDict)
    : M (report (list (string * StatusEntry))) :=
  match tasks with
  | [] => ret (NoData "Нет данных для отчета")
  | _ :: _ =>
      ret (Report
             (map
                (fun g =>
                   (fst g,
                    {| count := len (snd g);
                       percentage :=
                         round2
                           (Float (PrimFloat.mul
                                     (truediv (len (snd g)) (len tasks))
                                     (Z2float 100)));
                       first_tasks :=
                         map (fun t => (d_id t, d_title t)) (firstn 5 (snd g)) |}))
                (group_by_status tasks)))
  end.

(** [d.get(k, [])] on the groups. *)
Fixpoint group_get (k : string) (d : list (string * list TaskDict))
    : list TaskDict :=
  match d with
  | [] => []
  | (k', l) :: r => if (k' =? k)%string then l else group_get k r
  end.

Lemma group_get_add (k k' : string) (task : TaskDict)
    (d : list (string * list TaskDict)) :
  group_get k (group_add k' task d)
  = (group_get k d ++ (if (k' =? k)%string then [task] else []))%list.
Proof.
  induction d as [|[a l] r IH]; cbn [group_add group_get].
  - destruct (k' =? k)%string; reflexivity.
  - destruct (String.eqb_spec a k') as [Eak'|Nak']; cbn [group_get].
    + subst a. destruct (k' =? k)%string; [reflexivity|].
      rewrite app_nil_r. reflexivity.
    + destruct (String.eqb_spec a k) as [Eak|Nak]; [|exact IH].
      subst a. apply String.eqb_neq in Nak'. rewrite String.eqb_sym in Nak'.
      rewrite Nak', app_nil_r. reflexivity.
Qed.

Lemma group_add_keys (k k' : string) (task : TaskDict)
    (d : list (string * list TaskDict)) :
  In k' (map fst (group_add k task d)) <-> k' = k \/ In k' (map fst d).
Proof.
  induction d as [|[a l] r IH]; cbn [group_add map fst In].
  - split; intros [H|[]]; left; symmetry; exact H.
  - destruct (String.eqb_spec a k) as [E|N]; cbn [map fst In].
    + subst a. split; [intro H; right; exact H|].
      intros [H|H]; [left; symmetry; exact H | exact H].
    + rewrite IH. split.
      * intros [H|[H|H]]; [right; left; exact H | left; exact H
                          | right; right; exact H].
      * intros [H|[H|H]]; [right; left; exact H | left; exact H
                          | right; right; exact H].
Qed.

Lemma group_add_NoDup (k : string) (task : TaskDict)
    (d : list (string * list TaskDict)) :
  NoDup (map fst d) -> NoDup (map fst (group_add k task d)).
Proof.
  induction d as [|[a l] r IH]; cbn [group_add map fst]; intro H.
  - constructor; [intros [] | constructor].
  - inversion H as [|? ? Hnot Hr]; subst.
    destruct (String.eqb_spec a k) as [E|N]; cbn [map fst].
    + constructor; assumption.
    + constructor; [|apply IH; exact Hr].
      rewrite group_add_keys. intros [Ha|Ha]; contradiction.
Qed.

Lemma group_get_entry (k : string) (l : list TaskDict)
    (d : list (string * list TaskDict)) :
  NoDup (map fst d) -> In (k, l) d -> group_get k d = l.
Proof.
  induction d as [|[a m] r IH]; cbn [map fst group_get In]; intros Hn H;
    [contradiction|].
  inversion Hn as [|? ? Hnot Hr]; subst.
  destruct H as [H|H].
  - injection H as -> ->. rewrite String.eqb_refl. reflexivity.
  - destruct (String.eqb_spec a k) as [E|N]; [|apply IH; assumption].
    exfalso. apply Hnot. subst a. apply (in_map fst) in H. exact H.
Qed.

Lemma group_get_key (k : string) (d : list (string * list TaskDict)) :
  In k (map fst d) -> In (k, group_get k d) d.
Proof.
  induction d as [|[a m] r IH]; cbn [map fst group_get In]; intro H;
    [contradiction|].
  destruct (String.eqb_spec a k) as [E|N].
  - left. subst a. reflexivity.
  - right. apply IH. destruct H as [H|H]; [contradiction | exact H].
Qed.

(** What the first loop builds: distinct statuses, each with the tasks
    that carry it, in the order of the collection. *)
Lemma group_by_status_shape (tasks : list TaskDict) :
  NoDup (map fst (group_by_status tasks))
  /\ (forall k, In k (map fst (group_by_status tasks))
                <-> In k (map status_of tasks))
  /\ (forall k, group_get k (group_by_status tasks)
                = filter (fun t => (status_of t =? k)%string) tasks).
Proof.
  unfold group_by_status.
  assert (G : forall d,
             NoDup (map fst d) ->
             NoDup (map fst (fold_left
                               (fun d task => group_add (status_of task) task d)
                               tasks d))
             /\ (forall k,
                   In k (map fst (fold_left
                                    (fun d task => group_add (status_of task) task d)
                                    tasks d))
                   <-> In k (map fst d) \/ In k (map status_of tasks))
             /\ (forall k,
                   group_get k (fold_left
                                  (fun d task => group_add (status_of task) task d)
                                  tasks d)
                   = (group_get k d
                      ++ filter (fun t => (status_of t =? k)%string) tasks)%list)).
  { induction tasks as [|t ts IH]; intros d Hn; cbn [fold_left map filter].
    - split; [exact Hn|]. split.
      + intro k. split; [intro H; left; exact H | intros [H|[]]; exact H].
      + intro k. rewrite app_nil_r. reflexivity.
    - destruct (IH (group_add (status_of t) t d)
                  (group_add_NoDup (status_of t) t d Hn)) as (H1 & H2 & H3).
      split; [exact H1|]. split.
      + intro k. rewrite H2, group_add_keys. cbn [In]. split.
        * intros [[H|H]|H]; [right; left; symmetry; exact H | left; exact H
                            | right; right; exact H].
        * intros [H|[H|H]]; [left; right; exact H
                            | left; left; symmetry; exact H | right; exact H].
      + intro k. rewrite H3, group_get_add.
        destruct (status_of t =? k)%string; [rewrite <- app_assoc|
                                             rewrite app_nil_r]; reflexivity. }
  destruct (G [] (NoDup_nil _)) as (H1 & H2 & H3).
  split; [exact H1|]. split.
  - intro k. rewrite H2. cbn [map In]. split; [intros [[]|H]; exact H|].
    intro H. right. exact H.
  - intro k. rewrite H3. reflexivity.
Qed.

(** X26.  On a snapshot that is not empty the report by status has one
    entry for each status that occurs (a task without a status counting
    as "неизвестно") and for no other: its [count] is the number of tasks
    with that status, at least 1, and its task list gives the id and the
    title of the first five of them in the order of the collection.  No
    timestamp is parsed, the clock is not read and nothing is printed. *)
Theorem status_report_groups_every_task (tasks : list TaskDict) (e : Env) :
  tasks <> [] ->
  exists groups,
    generate_status_report tasks e = (Ok (Report groups), e)
    /\ NoDup (map fst groups)
    /\ (forall label, In label (map fst groups) <-> In label (map status_of tasks))
    /\ forall label entry,
         In (label, entry) groups ->
         1 <= count entry
         /\ count entry
            = len (filter (fun t => (status_of t =? label)%string) tasks)
         /\ first_tasks entry
            = map (fun t => (d_id t, d_title t))
                (firstn 5 (filter (fun t => (status_of t =? label)%string) tasks)).
Proof.
  intro Hne. destruct tasks as [|t0 ts]; [contradiction|].
  set (tasks := t0 :: ts) in *.
  destruct (group_by_status_shape tasks) as (Hnd & Hkeys & Hget).
  eexists. split; [reflexivity|].
  assert (Hfst : forall (d : list (string * list TaskDict))
                        (f : string * list TaskDict -> StatusEntry),
             map fst (map (fun g => (fst g, f g)) d) = map fst d).
  { intros d f. rewrite map_map. reflexivity. }
  rewrite Hfst. split; [exact Hnd|]. split; [exact Hkeys|].
  intros label entry Hin. apply in_map_iff in Hin.
  destruct Hin as ([k l] & Heq & Hin). cbn [fst snd] in Heq.
  injection Heq as <- <-. cbn [count first_tasks].
  pose proof (group_get_entry k l _ Hnd Hin) as Hl. rewrite Hget in Hl.
  subst l. split; [|split; reflexivity].
  assert (Hk : In k (map status_of tasks)).
  { apply Hkeys. apply (in_map fst) in Hin. exact Hin. }
  apply in_map_iff in Hk. destruct Hk as (t & Hst & Ht).
  assert (Hmem : In t (filter (fun t => (status_of t =? k)%string) tasks)).
  { apply filter_In. split; [exact Ht|]. rewrite Hst. apply String.eqb_refl. }
  destruct (filter (fun t => (status_of t =? k)%string) tasks);
    [contradiction|]. rewrite len_cons. pose proof (len_nonneg l). lia.
Qed.

(* ------------------------------------------------------------------ *)
(** ** The productivity report *)
(* ------------------------------------------------------------------ *)

(** [d.weekday()]: Monday is 0, and 0001-01-01 was a Monday. *)
Definition weekday (d : datetime) : Z := date d mod 7.

(** [d.hour] *)
Definition hour (d : datetime) : Z := (d mod usec_per_day) / 3600000000.

(** The decimal digits of [n] ([n] not negative) before [acc]. *)
Fixpoint digits_of (fuel : nat) (n : Z) (acc : string) : string :=
  let acc' := String (ascii_of_nat (Z.to_nat (48 + n mod 10))) acc in
  match fuel with
  | O => acc'
  | S f => if n / 10 =? 0 then acc' else digits_of f (n / 10) acc'
  end.

(** [str(z)], as an f-string renders an [int]. *)
Definition str_of_int (z : Z) : string :=
  if z <? 0 then String "-" (digits_of (Z.to_nat (Z.log2 (- z))) (- z) "")
  else digits_of (Z.to_nat (Z.log2 z)) z "".

(** The dictionary [weekday_map]. *)
Definition weekday_map : list (Z * string) :=
  [ (0, "Понедельник"); (1, "Вторник"); (2, "Среда"); (3, "Четверг");
    (4, "Пятница"); (5, "Суббота"); (6, "Воскресенье") ].

(** [d[k]] on a dictionary with integer keys. *)
Fixpoint lookup_int (k : Z) (d : list (Z * string)) : M string :=
  match d with
  | [] => raise (KeyError (str_of_int k))
  | (k', v) :: r => if k' =? k then ret v else lookup_int k r
  end.

(** [d[k] += 1] with integer keys. *)
Fixpoint bump_int (k : Z) (d : list (Z * Z)) : list (Z * Z) :=
  match d with
  | [] => [(k, 1)]
  | (k', n) :: r => if k' =? k then (k', n + 1) :: r else (k', n) :: bump_int k r
  end.

(** [max(d.items(), key=lambda x: x[1])] with integer keys. *)
Definition max_item_int (first : Z * Z) (rest : list (Z * Z)) : Z * Z :=
  fold_left (fun best x => if snd best <? snd x then x else best) rest first.

Record MostProductive : Type := mkMostProductive {
  day : string;
  day_count : Z;
  hour_range : string;
  hour_count : Z
}.

Record Productivity : Type := mkProductivity {
  by_weekday : list (string * Z);
  by_hour : list (Z * Z);
  most_productive : MostProductive
}.

(** The body of the loop of [generate_productivity_report]. *)
Definition productivity_step (stats : list (string * Z) * list (Z * Z))
    (task : TaskDict) : M (list (string * Z) * list (Z * Z)) :=
  d <- task_date task ;;
  name <- lookup_int (weekday d) weekday_map ;;
  ret (bump name (fst stats), bump_int (hour d) (snd stats)).

(** [TaskReporting.generate_productivity_report] *)
Definition generate_productivity_report (tasks : list TaskDict)
    : M (report Productivity) :=
  match tasks with
  | [] => ret (NoData "Нет данных для отчета")
  | _ :: _ =>
      stats <- foldM productivity_step ([], []) tasks ;;
      let weekday_stats := fst stats in
      let hour_stats := snd stats in
      let most_productive_day :=
        match weekday_stats with
        | first :: rest => max_item first rest
        | [] => ("Нет данных", 0)
        end in
      let most_productive_hour :=
        match hour_stats with
        | first :: rest => max_item_int first rest
        | [] => (-1, 0)
        end in
      ret (Report
             {| by_weekday := weekday_stats;
                by_hour := hour_stats;
                most_productive :=
                  {| day := fst most_productive_day;
                     day_count := snd most_productive_day;
                     hour_range :=
                       str_of_int (fst most_productive_hour) ++ ":00-"
                       ++ str_of_int (fst most_productive_hour + 1) ++ ":00";
                     hour_count := snd most_productive_hour |} |})
  end.

(** The name of the weekday of a timestamp. *)
Definition weekday_name (d : datetime) : string :=
  snd (nth (Z.to_nat (weekday d)) weekday_map (0, "")).

(** [sum(d.values())] with integer keys. *)
Definition int_total (d : list (Z * Z)) : Z :=
  fold_right (fun kv acc => snd kv + acc) 0 d.

Lemma weekday_bounds (d : datetime) : 0 <= weekday d < 7.
Proof.
  unfold weekday. apply Z.mod_pos_bound. lia.
Qed.

Lemma hour_bounds (d : datetime) : 0 <= hour d <= 23.
Proof.
  unfold hour, usec_per_day.
  pose proof (Z.mod_pos_bound d 86400000000 ltac:(lia)) as H.
  split.
  - apply Z.div_pos; lia.
  - assert (d mod 86400000000 / 3600000000 < 24); [|lia].
    apply Z.div_lt_upper_bound; lia.
Qed.

Lemma lookup_weekday (d : datetime) (e : Env) :
  lookup_int (weekday d) weekday_map e = (Ok (weekday_name d), e)
  /\ In (weekday_name d) (map snd weekday_map).
Proof.
  unfold weekday_name. pose proof (weekday_bounds d) as H.
  assert (Hc : weekday d = 0 \/ weekday d = 1 \/ weekday d = 2 \/ weekday d = 3
               \/ weekday d = 4 \/ weekday d = 5 \/ weekday d = 6) by lia.
  destruct Hc as [->|[->|[->|[->|[->|[->| ->]]]]]]; split;
    try reflexivity; cbn; auto 10.
Qed.

Lemma productivity_loop (tasks : list TaskDict)
    (stats : list (string * Z) * list (Z * Z)) (e : Env) :
  Forall well_dated tasks ->
  foldM productivity_step stats tasks e
  = (Ok (fold_left (fun d k => bump k d)
           (map (fun t => weekday_name (created t)) tasks) (fst stats),
         fold_left (fun d k => bump_int k d)
           (map (fun t => hour (created t)) tasks) (snd stats)),
     e).
Proof.
  intro H. revert stats.
  induction H as [|t ts Ht Hts IH]; intro stats; cbn [foldM map fold_left].
  - destruct stats; reflexivity.
  - unfold bind at 1, productivity_step, bind at 1.
    rewrite (task_date_ok t e Ht). unfold bind at 1.
    rewrite (proj1 (lookup_weekday (created t) e)). cbn [ret].
    rewrite IH. reflexivity.
Qed.

Lemma bump_int_total (k : Z) (d : list (Z * Z)) :
  int_total (bump_int k d) = int_total d + 1.
Proof.
  induction d as [|[a n] r IH]; cbn [bump_int int_total fold_right snd].
  - lia.
  - destruct (a =? k); cbn [int_total fold_right snd].
    + fold (int_total r). lia.
    + fold (int_total (bump_int k r)). fold (int_total r). rewrite IH. lia.
Qed.

Lemma bump_int_keys (k k' : Z) (d : list (Z * Z)) :
  In k' (map fst (bump_int k d)) -> k' = k \/ In k' (map fst d).
Proof.
  induction d as [|[a n] r IH]; cbn [bump_int map fst In].
  - intros [H|[]]. left. symmetry. exact H.
  - destruct (Z.eqb_spec a k) as [E|N]; cbn [map fst In].
    + intro H. right. exact H.
    + intros [H|H]; [right; left; exact H|].
      destruct (IH H) as [H'|H']; [left; exact H' | right; right; exact H'].
Qed.

Lemma count_ints_shape (keys : list Z) (d : list (Z * Z)) :
  int_total (fold_left (fun d k => bump_int k d) keys d) = int_total d + len keys
  /\ forall k,
       In k (map fst (fold_left (fun d k => bump_int k d) keys d)) ->
       In k (map fst d) \/ In k keys.
Proof.
  revert d. induction keys as [|x keys IH]; intro d; cbn [fold_left].
  - split; [unfold len; simpl; lia | intros k H; left; exact H].
  - destruct (IH (bump_int x d)) as [H1 H2]. split.
    + rewrite H1, bump_int_total, len_cons. lia.
    + intros k H. apply H2 in H. cbn [In].
      destruct H as [H|H]; [|right; right; exact H].
      apply bump_int_keys in H.
      destruct H as [H|H]; [right; left; symmetry; exact H | left; exact H].
Qed.

Lemma max_item_int_spec (first : Z * Z) (rest : list (Z * Z)) :
  In (max_item_int first rest) (first :: rest)
  /\ forall x, In x (first :: rest) -> snd x <= snd (max_item_int first rest).
Proof.
  unfold max_item_int. revert first.
  induction rest as [|y rest IH]; intro first; cbn [fold_left].
  - split; [left; reflexivity|]. intros x [<-|[]]. lia.
  - destruct (Z.ltb_spec (snd first) (snd y)) as [Hlt|Hge].
    + destruct (IH y) as [Hin Hmax]. split.
      * right. exact Hin.
      * intros x [<-|Hx]; [|apply Hmax; exact Hx].
        pose proof (Hmax y (or_introl eq_refl)). lia.
    + destruct (IH first) as [Hin Hmax]. split.
      * destruct Hin as [Hin|Hin]; [left; exact Hin | right; right; exact Hin].
      * intros x [<-|[<-|Hx]].
        -- apply Hmax. left. reflexivity.
        -- pose proof (Hmax first (or_introl eq_refl)). lia.
        -- apply Hmax. right. exact Hx.
Qed.

(** X27.  On a snapshot that is not empty, every [created_at] a timestamp,
    the productivity report is returned without reading the clock or
    printing, and its placeholders are never used: the counts by weekday
    and the counts by hour each add up to the number of tasks; the most
    productive day is one of the seven weekday names, the weekday of some
    task, and no weekday has a higher count; the most productive hour [h]
    is the hour of some task, between 0 and 23, rendered "h:00-(h+1):00",
    and no hour has a higher count. *)
Theorem productivity_report_counts_every_task (tasks : list TaskDict) (e : Env) :
  tasks <> [] ->
  Forall well_dated tasks ->
  exists r,
    generate_productivity_report tasks e = (Ok (Report r), e)
    /\ dict_total (by_weekday r) = len tasks
    /\ int_total (by_hour r) = len tasks
    /\ In (day (most_productive r)) (map snd weekday_map)
    /\ In (day (most_productive r), day_count (most_productive r)) (by_weekday r)
    /\ (exists task,
          In task tasks
          /\ day (most_productive r) = weekday_name (created task))
    /\ (forall x, In x (by_weekday r) -> snd x <= day_count (most_productive r))
    /\ exists h,
         0 <= h <= 23
         /\ (exists task, In task tasks /\ h = hour (created task))
         /\ hour_range (most_productive r)
            = str_of_int h ++ ":00-" ++ str_of_int (h + 1) ++ ":00"
         /\ In (h, hour_count (most_productive r)) (by_hour r)
         /\ forall x, In x (by_hour r) -> snd x <= hour_count (most_productive r).
Proof.
  intros Hne Hw. destruct tasks as [|t0 ts]; [contradiction|].
  unfold generate_productivity_report, bind.
  set (tasks := t0 :: ts) in *.
  rewrite (productivity_loop tasks ([], []) e Hw). cbn [fst snd ret].
  set (names := map (fun t => weekday_name (created t)) tasks).
  set (hours := map (fun t => hour (created t)) tasks).
  fold (count_keys names).
  destruct (count_keys_shape names) as (_ & _ & Htot & Hkeys).
  destruct (count_ints_shape hours []) as (Hitot & Hikeys).
  assert (Hlen : forall (A : Type) (f : TaskDict -> A), len (map f tasks) = len tasks).
  { intros A f. unfold len. rewrite length_map. reflexivity. }
  unfold names in Htot. rewrite Hlen in Htot. fold names in Htot.
  unfold hours in Hitot. rewrite Hlen in Hitot. fold hours in Hitot.
  cbn [int_total fold_right] in Hitot.
  assert (Hpos : 1 <= len tasks).
  { unfold tasks. rewrite len_cons. pose proof (len_nonneg ts). lia. }
  destruct (count_keys names) as [|wfirst wrest] eqn:Ew;
    [cbn in Htot; lia|].
  destruct (fold_left (fun d k => bump_int k d) hours []) as [|hfirst hrest] eqn:Eh;
    [cbn in Hitot; lia|].
  eexists. split; [reflexivity|].
  cbn [by_weekday by_hour most_productive day day_count hour_range hour_count].
  destruct (max_item_spec wfirst wrest) as [Hwin Hwmax].
  destruct (max_item_int_spec hfirst hrest) as [Hhin Hhmax].
  assert (Hname : In (fst (max_item wfirst wrest)) names).
  { apply Hkeys. apply in_map. exact Hwin. }
  unfold names in Hname. apply in_map_iff in Hname.
  destruct Hname as (tw & Htw & Htwin).
  assert (Hhour : In (fst (max_item_int hfirst hrest)) hours).
  { destruct (Hikeys (fst (max_item_int hfirst hrest))) as [[]|H];
      [apply in_map; exact Hhin | exact H]. }
  unfold hours in Hhour. apply in_map_iff in Hhour.
  destruct Hhour as (th & Hth & Hthin).
  split; [exact Htot|]. split; [lia|].
  split; [rewrite <- Htw; apply (lookup_weekday (created tw) e)|].
  split; [destruct (max_item wfirst wrest); exact Hwin|].
  split; [exists tw; split; [exact Htwin | symmetry; exact Htw]|].
  split; [exact Hwmax|].
  exists (fst (max_item_int hfirst hrest)).
  split; [rewrite <- Hth; apply hour_bounds|].
  split; [exists th; split; [exact Hthin | symmetry; exact Hth]|].
  split; [reflexivity|].
  split; [destruct (max_item_int hfirst hrest); exact Hhin | exact Hhmax].
Qed.

(* ------------------------------------------------------------------ *)
(** ** Loading the snapshot *)
(* ------------------------------------------------------------------ *)

(** [TaskReporting._load_tasks], for a file at [tasks_file] holding [file];
    [why] is the text of the decoding error the library reports. *)
Definition _load_tasks (tasks_file : string) (file : File) (why : string)
    : M (list TaskDict) :=
  match file with
  | NoFile =>
      print ("Файл " ++ tasks_file ++ " не найден. Возвращаем пустой список.") ;;;
      ret []
  | BadJson => print ("Ошибка загрузки задач: " ++ why) ;;; ret []
  | Json tasks => ret tasks
  end.

(** X28.  Over a file that does not exist or is not JSON, the engine
    prints one notice when it is constructed and every one of its four
    reports then returns the "no data" marker; the clock is never read and
    nothing else is printed. *)
Theorem reports_without_usable_file_have_no_data (tasks_file why p : string)
    (file : File) (days : Z) (e : Env) :
  file = NoFile \/ file = BadJson ->
  exists line,
    (tasks <- _load_tasks tasks_file file why ;; generate_summary_report tasks p) e
    = (Ok (NoData "Нет данных для отчета"), mkEnv (ticks e) (stdout e ++ [line]))
    /\ (tasks <- _load_tasks tasks_file file why ;; generate_status_report tasks) e
       = (Ok (NoData "Нет данных для отчета"), mkEnv (ticks e) (stdout e ++ [line]))
    /\ (tasks <- _load_tasks tasks_file file why ;;
        generate_timeline_report tasks days) e
       = (Ok (NoData "Нет данных для отчета"), mkEnv (ticks e) (stdout e ++ [line]))
    /\ (tasks <- _load_tasks tasks_file file why ;;
        generate_productivity_report tasks) e
       = (Ok (NoData "Нет данных для отчета"), mkEnv (ticks e) (stdout e ++ [line])).
Proof.
  intros [-> | ->]; eexists; repeat split.
Qed.

End Engine.

(* ------------------------------------------------------------------ *)
(** ** The reports at work *)
(* ------------------------------------------------------------------ *)

(** Nothing printed yet, the clock never read. *)
Definition env0 : Env := mkEnv 0 [].

(** A clock that reads 2026-11-03T10:00:00 first and a millisecond more
    each time. *)
Definition morning_clock (n : nat) : datetime :=
  739922 * usec_per_day + 36000000000 + Z.of_nat n * 1000.

Definition task_dict (i : Z) (title0 status0 created_at0 : string) : TaskDict :=
  mkDict (Some i) (Some title0) (Some "") (Some status0)
    (Some created_at0) (Some created_at0).

(** Three tasks created on 2026-11-03, two completed and one active. *)
Definition same_day_tasks : list TaskDict :=
  [ task_dict 1 "fix bug" "завершенная" "2026-11-03T08:02:11.000402";
    task_dict 2 "write tests" "активная" "2026-11-03T08:40:00";
    task_dict 3 "release" "завершенная" "2026-11-03T09:59:59.999999" ].

(** Three tasks of the last days: two on 2026-11-01, none on the 2nd, one
    on the 3rd. *)
Definition sparse_tasks : list TaskDict :=
  [ task_dict 1 "plan" "завершенная" "2026-11-01T09:30:00";
    task_dict 2 "draft" "в процессе" "2026-11-01T17:45:10.250000";
    task_dict 3 "review" "активная" "2026-11-03T08:00:00" ].

(** Two tasks of the summer. *)
Definition old_tasks : list TaskDict :=
  [ task_dict 1 "plan" "завершенная" "2026-07-14T09:30:00";
    task_dict 2 "draft" "активная" "2026-08-02T11:00:00" ].

Lemma same_day_tasks_well_dated :
  Forall (well_dated Iso.fromisoformat) same_day_tasks.
Proof.
  repeat constructor; discriminate.
Defined.

Lemma sparse_tasks_well_dated :
  Forall (well_dated Iso.fromisoformat) sparse_tasks.
Proof.
  repeat constructor; discriminate.
Defined.

(** C2, the failing call.  With no period and no bounds the date filter
    returns no task at all: neither branch of its loop is taken, and
    nothing is appended.  The specification has it return the three tasks
    it was given. *)
Theorem no_criteria_returns_nothing :
  _filter_tasks_by_date Iso.fromisoformat morning_clock sparse_tasks
    None None None env0
  = (Ok [], mkEnv 3 [])
  /\ sparse_tasks <> [].
Proof.
  split; [reflexivity | discriminate].
Qed.





(** The timeline of the last two days, on sparse data. *)
Example timeline_of_sparse_tasks :
  fst (generate_timeline_report Iso.fromisoformat Iso.strftime_ymd morning_clock
         sparse_tasks 2 env0)
  = Ok (Report
          {| period_days := 2;
             timeline :=
               [ mkDay "2026-11-01" 2 [("завершенная", 1); ("в процессе", 1)];
                 mkDay "2026-11-02" 0 [];
                 mkDay "2026-11-03" 1 [("активная", 1)] ] |}).
Proof. vm_compute. reflexivity. Qed.

Lemma summary_completion_rate_witness :
  exists r e',
    generate_summary_report Iso.fromisoformat Iso.strftime_ymd morning_clock
      same_day_tasks "all" env0 = (Ok (Report r), e')
    /\ total_tasks r = 3
    /\ completion_rate r = Float 66.67
    /\ tasks_created r = 3.
Proof.
  destruct (summary_completion_rate Iso.fromisoformat Iso.strftime_ymd
              morning_clock same_day_tasks "all" env0
              ltac:(discriminate) same_day_tasks_well_dated)
    as (r & e' & H & _ & _ & Hthree).
  exists r, e'. split; [exact H|].
  apply Hthree; [reflexivity | reflexivity | reflexivity |].
  exists 739922. intros task [<-|[<-|[<-|[]]]]; reflexivity.
Defined.

(** The summary of the specification's example, in full. *)
Example summary_of_same_day_tasks :
  fst (generate_summary_report Iso.fromisoformat Iso.strftime_ymd morning_clock
         same_day_tasks "all" env0)
  = Ok (Report
          {| period := "all";
             total_tasks := 3;
             status_distribution := [("завершенная", 2); ("активная", 1)];
             completion_rate := Float 66.67;
             most_active_day := ("2026-11-03", 3);
             average_tasks_per_day := Float 3 |}).
Proof. vm_compute. reflexivity. Qed.

Lemma morning_clock_mono (k : nat) : morning_clock 0 <= morning_clock k.
Proof.
  unfold morning_clock. lia.
Defined.

Lemma summary_of_quiet_period_witness :
  exists e',
    generate_summary_report Iso.fromisoformat Iso.strftime_ymd morning_clock
      old_tasks "month" env0
    = (Ok (Report
             {| period := "month";
                total_tasks := 0;
                status_distribution := [];
                completion_rate := Int 0;
                most_active_day := ("Нет данных", 0);
                average_tasks_per_day := Int 0 |}),
       e')
    /\ stdout e' = stdout env0.
Proof.
  apply (summary_of_quiet_period Iso.fromisoformat Iso.strftime_ymd
           morning_clock old_tasks "month" env0).
  - discriminate.
  - right. right. left. reflexivity.
  - intros task Hin. split.
    + destruct Hin as [<-|[<-|[]]]; discriminate.
    + intros k _. apply Z.lt_le_trans with (morning_clock 0 - timedelta 30).
      * destruct Hin as [<-|[<-|[]]]; vm_compute; reflexivity.
      * apply Z.sub_le_mono_r. apply morning_clock_mono.
Defined.

(* ------------------------------------------------------------------ *)
(** ** More of the reports at work *)
(* ------------------------------------------------------------------ *)



(** Of the sparse tasks, one was created in the last day. *)
Example filter_last_day :
  fst (_filter_tasks_by_date Iso.fromisoformat morning_clock sparse_tasks
         (Some 1) None None env0)
  = Ok [task_dict 3 "review" "активная" "2026-11-03T08:00:00"].
Proof. vm_compute. reflexivity. Qed.

Lemma range_filter_is_inclusive_witness :
  exists l,
    _filter_tasks_by_date Iso.fromisoformat morning_clock sparse_tasks
      None (Some "2026-11-01T09:30:00") (Some "2026-11-03") env0
    = (Ok l, mkEnv 3 [])
    /\ l = filter
             (fun t =>
                (739920 * usec_per_day + 34200000000
                 <=? created Iso.fromisoformat t)
                && (created Iso.fromisoformat t <=? 739922 * usec_per_day))
             sparse_tasks.
Proof.
  destruct (range_filter_is_inclusive Iso.fromisoformat morning_clock
              sparse_tasks None "2026-11-01T09:30:00" "2026-11-03"
              (739920 * usec_per_day + 34200000000) (739922 * usec_per_day) env0
              eq_refl ltac:(discriminate) ltac:(discriminate)
              ltac:(vm_compute; reflexivity) ltac:(vm_compute; reflexivity)
              sparse_tasks_well_dated)
    as (l & H1 & H2 & _).
  exists l. split; assumption.
Defined.

(** The start is included to the microsecond; an end given as a date is
    midnight, so the task created at 08:00 that day is left out. *)
Example filter_range_to_a_date :
  fst (_filter_tasks_by_date Iso.fromisoformat morning_clock sparse_tasks
         None (Some "2026-11-01T09:30:00") (Some "2026-11-03") env0)
  = Ok [ task_dict 1 "plan" "завершенная" "2026-11-01T09:30:00";
         task_dict 2 "draft" "в процессе" "2026-11-01T17:45:10.250000" ].
Proof. vm_compute. reflexivity. Qed.

Lemma summary_distribution_adds_up_witness :
  exists r e',
    generate_summary_report Iso.fromisoformat Iso.strftime_ymd morning_clock
      sparse_tasks "week" env0 = (Ok (Report r), e')
    /\ dict_total (status_distribution r) = total_tasks r.
Proof.
  destruct (summary_distribution_adds_up Iso.fromisoformat Iso.strftime_ymd
              morning_clock sparse_tasks "week" env0
              ltac:(discriminate) sparse_tasks_well_dated)
    as (r & e' & H1 & _ & H3 & _).
  exists r, e'. split; assumption.
Defined.

Lemma most_active_day_has_most_tasks_witness :
  exists r e',
    generate_summary_report Iso.fromisoformat Iso.strftime_ymd morning_clock
      sparse_tasks "week" env0 = (Ok (Report r), e')
    /\ forall day,
         len (created_on Iso.fromisoformat day
                (scope Iso.fromisoformat morning_clock "week" 0 sparse_tasks))
         <= tasks_created r.
Proof.
  destruct (most_active_day_has_most_tasks Iso.fromisoformat Iso.strftime_ymd
              morning_clock sparse_tasks "week" env0
              ltac:(discriminate) sparse_tasks_well_dated)
    as (r & e' & H1 & H2 & _).
  exists r, e'. split; assumption.
Defined.

(** The summary of the week, on sparse data. *)
Example summary_of_sparse_week :
  fst (generate_summary_report Iso.fromisoformat Iso.strftime_ymd morning_clock
         sparse_tasks "week" env0)
  = Ok (Report
          {| period := "week";
             total_tasks := 3;
             status_distribution :=
               [("завершенная", 1); ("в процессе", 1); ("активная", 1)];
             completion_rate := Float 33.33;
             most_active_day := ("2026-11-01", 2);
             average_tasks_per_day := Float 1.5 |}).
Proof. vm_compute. reflexivity. Qed.

Lemma unknown_period_means_no_filter_witness :
  exists r,
    generate_summary_report Iso.fromisoformat Iso.strftime_ymd morning_clock
      old_tasks "year" env0 = (Ok (Report r), env0)
    /\ period r = "year"
    /\ total_tasks r = len old_tasks.
Proof.
  destruct (unknown_period_means_no_filter Iso.fromisoformat Iso.strftime_ymd
              morning_clock old_tasks "year" env0
              ltac:(discriminate)
              ltac:(repeat constructor; discriminate)
              ltac:(intros [H|[H|[H|[]]]]; discriminate H))
    as (r & H1 & H2 & H3 & _).
  exists r. repeat split; assumption.
Defined.




(** Yesterday and today hold one of the three sparse tasks. *)
Example timeline_total_of_two_days :
  option_map (fun r => timeline_total (timeline r))
    (match fst (generate_timeline_report Iso.fromisoformat Iso.strftime_ymd
                  morning_clock sparse_tasks 1 env0) with
     | Ok (Report r) => Some r
     | _ => None
     end)
  = Some 1.
Proof. vm_compute. reflexivity. Qed.

Lemma status_report_groups_every_task_witness :
  exists groups,
    generate_status_report same_day_tasks env0 = (Ok (Report groups), env0)
    /\ NoDup (map fst groups).
Proof.
  destruct (status_report_groups_every_task same_day_tasks env0
              ltac:(discriminate))
    as (groups & H1 & H2 & _).
  exists groups. split; assumption.
Defined.

(** The report by status of the three tasks of one day. *)
Example status_report_of_same_day_tasks :
  fst (generate_status_report same_day_tasks env0)
  = Ok (Report
          [ ("завершенная",
             mkStatusEntry 2 (Float 66.67)
               [(Some 1, Some "fix bug"); (Some 3, Some "release")]);
            ("активная",
             mkStatusEntry 1 (Float 33.33) [(Some 2, Some "write tests")]) ]).
Proof. vm_compute. reflexivity. Qed.

Lemma productivity_report_counts_every_task_witness :
  exists r,
    generate_productivity_report Iso.fromisoformat sparse_tasks env0
    = (Ok (Report r), env0)
    /\ dict_total (by_weekday r) = len sparse_tasks
    /\ int_total (by_hour r) = len sparse_tasks.
Proof.
  destruct (productivity_report_counts_every_task Iso.fromisoformat
              sparse_tasks env0 ltac:(discriminate) sparse_tasks_well_dated)
    as (r & H1 & H2 & H3 & _).
  exists r. repeat split; assumption.
Defined.

(** The productivity report on sparse data: two tasks on a Sunday, one on
    a Tuesday; three hours with one task each, the first of which wins. *)
Example productivity_of_sparse_tasks :
  fst (generate_productivity_report Iso.fromisoformat sparse_tasks env0)
  = Ok (Report
          {| by_weekday := [("Воскресенье", 2); ("Вторник", 1)];
             by_hour := [(9, 1); (17, 1); (8, 1)];
             most_productive :=
               {| day := "Воскресенье";
                  day_count := 2;
                  hour_range := "9:00-10:00";
                  hour_count := 1 |} |}).
Proof. vm_compute. reflexivity. Qed.

Lemma reports_without_usable_file_have_no_data_witness :
  exists line,
    (bind (_load_tasks "tasks.json" NoFile "")
       (fun tasks =>
          generate_summary_report Iso.fromisoformat Iso.strftime_ymd
            morning_clock tasks "all")) env0
    = (Ok (NoData "Нет данных для отчета"), mkEnv 0 [line]).
Proof.
  destruct (reports_without_usable_file_have_no_data Iso.fromisoformat
              Iso.strftime_ymd morning_clock "tasks.json" "" "all" NoFile 30
              env0 (or_introl eq_refl))
    as (line & H & _).
  exists line. exact H.
Defined.

End Reports.
